(** * SimCtl MCP server: the tool dispatcher and its command construction

    A shallow embedding of [src/simctl_mcp_server.py].  The server receives
    a tool name and a JSON object of arguments, builds an argument vector
    for [xcrun simctl], runs it as a child process and turns the outcome
    into one text response.

    Layout of the development:
    - Python values as delivered by the JSON transport, with the few
      operators the handlers use on them (truthiness, [==] against a
      literal, [str()], iteration);
    - [bytes.decode()] and [str.strip()] on UTF-8 text;
    - an outcome monad over an explicit world: the process table of the
      environment, the temporary files and the trace of effects;
    - the fifteen handlers, [_run_simctl_command] and [handle_call_tool];
    - the tool registry announced by [handle_list_tools];
    - the properties. *)

From Stdlib Require Import ZArith String Ascii List.
From Stdlib Require Import Floats.PrimFloat.
From stdpp Require Import base option list strings pretty gmap.

Set Warnings "-register-all".
Local Open Scope string_scope.
Local Open Scope list_scope.

(** ** Python values *)

(** What [json.loads] can produce: these are the only values the transport
    hands to a handler.  A Python [str] is kept as its UTF-8 encoding. *)
Inductive pyval : Type :=
| PNone
| PBool (b : bool)
| PInt (z : Z)
| PFloat (f : float)
| PStr (s : string)
| PList (l : list pyval)
| PDict (kv : list (string * pyval)).

(** [bool(v)]: the test behind [if v] and [not v]. *)
Definition truthy (v : pyval) : bool :=
  match v with
  | PNone => false
  | PBool b => b
  | PInt z => negb (z =? 0)%Z
  | PFloat f => negb (PrimFloat.eqb f PrimFloat.zero)
  | PStr s => negb (String.eqb s "")
  | PList l => match l with [] => false | _ :: _ => true end
  | PDict kv => match kv with [] => false | _ :: _ => true end
  end.

(** [v == "lit"] for a string literal: other types compare unequal. *)
Definition py_eq_str (v : pyval) (lit : string) : bool :=
  match v with
  | PStr s => String.eqb s lit
  | _ => false
  end.

(** [v is not None]. *)
Definition is_not_None (v : pyval) : bool :=
  match v with
  | PNone => false
  | _ => true
  end.

(** [type(v).__name__], as it appears in the interpreter's messages. *)
Definition py_type_name (v : pyval) : string :=
  match v with
  | PNone => "NoneType"
  | PBool _ => "bool"
  | PInt _ => "int"
  | PFloat _ => "float"
  | PStr _ => "str"
  | PList _ => "list"
  | PDict _ => "dict"
  end.

(** ** Exceptions

    Only subclasses of [Exception] occur; an exception is known by its
    class and by the text [str(e)] gives. *)
Inductive exn_class : Type :=
| KeyError
| ValueError
| RuntimeError
| TypeError
| FileNotFoundError
| UnicodeDecodeError
| JSONDecodeError
| OtherException (cls : string).

Record exn : Type := Exn { exn_cls : exn_class; exn_str : string }.

(** [str(KeyError(k))] is [repr(k)]; the keys looked up by the handlers are
    plain identifiers, whose [repr] is the key between single quotes. *)
Definition key_error (k : string) : exn := Exn KeyError ("'" +:+ k +:+ "'").

Definition is_FileNotFoundError (e : exn) : bool :=
  match exn_cls e with
  | FileNotFoundError => true
  | _ => false
  end.

Definition is_JSONDecodeError (e : exn) : bool :=
  match exn_cls e with
  | JSONDecodeError => true
  | _ => false
  end.

(** ** UTF-8 text: [bytes.decode()] and [str.strip()] *)

Definition byte_in (a : ascii) (lo hi : N) : bool :=
  ((lo <=? N_of_ascii a) && (N_of_ascii a <=? hi))%N.

Definition byte_is (a : ascii) (n : N) : bool := (N_of_ascii a =? n)%N.

Definition is_cont (a : ascii) : bool := byte_in a 128 191.

(** Second byte allowed after the lead byte of a three-byte sequence
    (no overlong forms, no surrogates). *)
Definition lead3_ok (a b : ascii) : bool :=
  (byte_is a 224 && byte_in b 160 191)
  || (byte_in a 225 236 && is_cont b)
  || (byte_is a 237 && byte_in b 128 159)
  || (byte_in a 238 239 && is_cont b).

(** Second byte allowed after the lead byte of a four-byte sequence
    (no overlong forms, nothing above U+10FFFF). *)
Definition lead4_ok (a b : ascii) : bool :=
  (byte_is a 240 && byte_in b 144 191)
  || (byte_in a 241 243 && is_cont b)
  || (byte_is a 244 && byte_in b 128 143).

Fixpoint utf8_valid (s : string) : bool :=
  match s with
  | EmptyString => true
  | String a r =>
      if byte_in a 0 127 then utf8_valid r
      else
        match r with
        | EmptyString => false
        | String b r1 =>
            if byte_in a 194 223 then is_cont b && utf8_valid r1
            else
              match r1 with
              | EmptyString => false
              | String c r2 =>
                  if byte_in a 224 239
                  then lead3_ok a b && is_cont c && utf8_valid r2
                  else
                    match r2 with
                    | EmptyString => false
                    | String d r3 =>
                        lead4_ok a b && is_cont c && is_cont d
                        && utf8_valid r3
                    end
              end
        end
  end.

(** One-byte white space: TAB..CR, FS..US and the space. *)
Definition is_space1 (a : ascii) : bool := byte_in a 9 13 || byte_in a 28 32.

(** U+0085 and U+00A0. *)
Definition is_space2 (a b : ascii) : bool :=
  byte_is a 194 && (byte_is b 133 || byte_is b 160).

(** U+1680, U+2000..U+200A, U+2028, U+2029, U+202F, U+205F, U+3000. *)
Definition is_space3 (a b c : ascii) : bool :=
  (byte_is a 225 && byte_is b 154 && byte_is c 128)
  || (byte_is a 226 && byte_is b 128
      && (byte_in c 128 138 || byte_is c 168 || byte_is c 169
          || byte_is c 175))
  || (byte_is a 226 && byte_is b 129 && byte_is c 159)
  || (byte_is a 227 && byte_is b 128 && byte_is c 128).

Fixpoint lstrip (s : string) : string :=
  match s with
  | EmptyString => EmptyString
  | String a r =>
      if is_space1 a then lstrip r
      else
        match r with
        | EmptyString => s
        | String b r1 =>
            if is_space2 a b then lstrip r1
            else
              match r1 with
              | EmptyString => s
              | String c r2 => if is_space3 a b c then lstrip r2 else s
              end
        end
  end.

(** The same scan on the reversed text, where a character shows its last
    byte first. *)
Fixpoint lstrip_rev (s : string) : string :=
  match s with
  | EmptyString => EmptyString
  | String a r =>
      if is_space1 a then lstrip_rev r
      else
        match r with
        | EmptyString => s
        | String b r1 =>
            if is_space2 b a then lstrip_rev r1
            else
              match r1 with
              | EmptyString => s
              | String c r2 => if is_space3 c b a then lstrip_rev r2 else s
              end
        end
  end.

Definition rstrip (s : string) : string :=
  String.rev (lstrip_rev (String.rev s)).

(** [s.strip()]. *)
Definition py_strip (s : string) : string := rstrip (lstrip s).

(** [for c in s]: the characters of [s], each as a one-character string. *)
Fixpoint utf8_chars (s : string) : list string :=
  match s with
  | EmptyString => []
  | String a r =>
      if byte_in a 0 193 then String a EmptyString :: utf8_chars r
      else
        match r with
        | EmptyString => [s]
        | String b r1 =>
            if byte_in a 194 223
            then String a (String b EmptyString) :: utf8_chars r1
            else
              match r1 with
              | EmptyString => [s]
              | String c r2 =>
                  if byte_in a 224 239
                  then String a (String b (String c EmptyString))
                       :: utf8_chars r2
                  else
                    match r2 with
                    | EmptyString => [s]
                    | String d r3 =>
                        String a (String b (String c (String d EmptyString)))
                        :: utf8_chars r3
                    end
              end
        end
  end.

(** ** Library functions that are not modelled

    The handlers format values and re-indent JSON through the interpreter's
    own routines.  Their algorithms are outside the server; the development
    is parametric in them. *)
Record PyLib : Type := {
  (** [repr(f)] of a float. *)
  float_repr : float -> string;
  (** [repr(v)] of a list or a dict. *)
  container_repr : pyval -> string;
  (** [json.dumps(v, indent=i)]; every JSON value can be serialised. *)
  json_dumps : option nat -> pyval -> string;
  (** [json.loads(s)], or the exception it raises. *)
  json_loads : string -> exn + pyval;
  (** [str(e)] of the [UnicodeDecodeError] for undecodable bytes. *)
  decode_error_str : string -> string
}.

(** ** The world a handler runs in *)

(** A launched child process, seen from [communicate()]: either it exits,
    leaving a status and its two captured streams, or it writes something
    and keeps running until it is signalled from outside. *)
Inductive process : Type :=
| Exits (returncode : Z) (stdout stderr : string)
| RunsOn (stdout stderr : string).

(** What [asyncio.create_subprocess_exec] does with a command line. *)
Inductive spawn_result : Type :=
| SpawnRaises (e : exn)
| Spawned (p : process).

Inductive event : Type :=
| EvCreate (path : string)
| EvWrite (path content : string)
| EvSpawn (cmd : list pyval)
| EvUnlink (path : string).

Record world : Type := World {
  (** the environment's answer to a launch *)
  launch : list pyval -> spawn_result;
  (** the name [tempfile] picks, before the suffix, given the files there *)
  mktemp_stem : gmap string string -> string;
  (** files created by the server: path to content *)
  files : gmap string string;
  (** effects so far, oldest first *)
  trace : list event
}.

Definition log (ev : event) (w : world) : world :=
  World (launch w) (mktemp_stem w) (files w) (trace w ++ [ev]).

Definition set_files (fs : gmap string string) (w : world) : world :=
  World (launch w) (mktemp_stem w) fs (trace w).

(** The command lines handed to the process launcher, oldest first. *)
Fixpoint spawned (t : list event) : list (list pyval) :=
  match t with
  | [] => []
  | EvSpawn cmd :: r => cmd :: spawned r
  | _ :: r => spawned r
  end.

(** ** Outcomes and the handler monad *)

(** A coroutine either returns, raises, or stays suspended on an [await]
    that never completes. *)
Inductive outcome (A : Type) : Type :=
| Returns (a : A)
| Raises (e : exn)
| Blocks.
Arguments Returns {A} a.
Arguments Raises {A} e.
Arguments Blocks {A}.

Definition M (A : Type) : Type := world -> outcome A * world.

#[global] Instance M_ret : MRet M := fun A a w => (Returns a, w).

#[global] Instance M_bind : MBind M := fun A B k m w =>
  match m w with
  | (Returns a, w') => k a w'
  | (Raises e, w') => (Raises e, w')
  | (Blocks, w') => (Blocks, w')
  end.

Definition raise {A} (e : exn) : M A := fun w => (Raises e, w).

Definition lift_result {A} (r : exn + A) : M A :=
  match r with
  | inl e => raise e
  | inr a => mret a
  end.

(** [try: body / except C: handler], where [catches] recognises class C. *)
Definition try_except {A} (body : M A) (catches : exn -> bool)
    (handler : exn -> M A) : M A := fun w =>
  match body w with
  | (Raises e, w') => if catches e then handler e w' else (Raises e, w')
  | r => r
  end.

(** [try: body / finally: fin].  The clean-up runs when the body returns or
    raises; an exception of the clean-up replaces the body's result.  A body
    that stays suspended never reaches it. *)
Definition try_finally {A} (body : M A) (fin : M unit) : M A := fun w =>
  match body w with
  | (Blocks, w') => (Blocks, w')
  | (r, w') =>
      match fin w' with
      | (Returns _, w'') => (r, w'')
      | (Raises e, w'') => (Raises e, w'')
      | (Blocks, w'') => (Blocks, w'')
      end
  end.

(** *** Dictionary access *)

(** [args[k]]. *)
Definition getitem (args : gmap string pyval) (k : string) : M pyval :=
  match args !! k with
  | Some v => mret v
  | None => raise (key_error k)
  end.

(** [args.get(k)]. *)
Definition get (args : gmap string pyval) (k : string) : pyval :=
  default PNone (args !! k).

(** [args.get(k, d)]. *)
Definition get_or (args : gmap string pyval) (k : string) (d : pyval)
  : pyval := default d (args !! k).

(** *** Processes and files *)

Definition create_subprocess_exec (cmd : list pyval) : M process := fun w =>
  let w' := log (EvSpawn cmd) w in
  match launch w cmd with
  | SpawnRaises e => (Raises e, w')
  | Spawned p => (Returns p, w')
  end.

(** [await process.communicate()] followed by [process.returncode]. *)
Definition communicate (p : process) : M (Z * string * string) :=
  match p with
  | Exits rc out err => mret (rc, out, err)
  | RunsOn _ _ => fun w => (Blocks, w)
  end.

(** [b.decode()]: strict UTF-8. *)
Definition decode (lib : PyLib) (b : string) : M string :=
  if utf8_valid b then mret b
  else raise (Exn UnicodeDecodeError (decode_error_str lib b)).

(** [tempfile.NamedTemporaryFile(mode='w', suffix='.json', delete=False)]:
    an empty file under a name of the system's choice. *)
Definition NamedTemporaryFile : M string := fun w =>
  let path := mktemp_stem w (files w) +:+ ".json" in
  (Returns path, log (EvCreate path) (set_files (<[path := ""]> (files w)) w)).

Definition file_write (path content : string) : M unit := fun w =>
  (Returns tt,
   log (EvWrite path content)
       (set_files (<[path := default "" (files w !! path) +:+ content]>
                     (files w)) w)).

(** [os.unlink(path)]. *)
Definition os_unlink (path : string) : M unit := fun w =>
  match files w !! path with
  | Some _ =>
      (Returns tt, log (EvUnlink path) (set_files (delete path (files w)) w))
  | None =>
      (Raises (Exn FileNotFoundError
                 ("[Errno 2] No such file or directory: '" +:+ path +:+ "'")),
       w)
  end.

(** ** The server *)

(** [types.TextContent]. *)
Record TextContent : Type := { type : string; text : string }.

Section Server.

Context (lib : PyLib).

(** [str(v)], which is also what an f-string inserts for [{v}]. *)
Definition py_str (v : pyval) : string :=
  match v with
  | PNone => "None"
  | PBool true => "True"
  | PBool false => "False"
  | PInt z => pretty z
  | PFloat f => float_repr lib f
  | PStr s => s
  | PList _ | PDict _ => container_repr lib v
  end.

(** [[...] + v]: only a list can be appended to a list. *)
Definition list_concat (l : list pyval) (v : pyval) : M (list pyval) :=
  match v with
  | PList l' => mret (l ++ l')
  | _ =>
      raise (Exn TypeError
               ("can only concatenate list (not " +:+ String "034" ""
                +:+ py_type_name v +:+ String "034" "" +:+ ") to list"))
  end.

(** [iter(v)], as used by [list.extend] and [str.join]. *)
Definition py_iter (v : pyval) : M (list pyval) :=
  match v with
  | PList l => mret l
  | PStr s => mret (PStr <$> utf8_chars s)
  | PDict kv => mret ((fun p : string * pyval => PStr p.1) <$> kv)
  | _ =>
      raise (Exn TypeError
               ("'" +:+ py_type_name v +:+ "' object is not iterable"))
  end.

Fixpoint str_items (i : nat) (l : list pyval) : M (list string) :=
  match l with
  | [] => mret []
  | PStr s :: r => ss ← str_items (S i) r; mret (s :: ss)
  | v :: _ =>
      raise (Exn TypeError
               ("sequence item " +:+ pretty i +:+ ": expected str instance, "
                +:+ py_type_name v +:+ " found"))
  end.

(** [sep.join(v)]. *)
Definition py_join (sep : string) (v : pyval) : M string :=
  match v with
  | PList _ | PStr _ | PDict _ =>
      l ← py_iter v; ss ← str_items 0 l; mret (String.concat sep ss)
  | _ => raise (Exn TypeError "can only join an iterable")
  end.

(** *** [_run_simctl_command] *)

Definition _run_simctl_command (args : list pyval) : M string :=
  let cmd := [PStr "xcrun"; PStr "simctl"] ++ args in
  try_except
    (process ← create_subprocess_exec cmd;
     '(returncode, stdout, stderr) ← communicate process;
     if negb (returncode =? 0)%Z then
       error_msg ←
         (if negb (String.eqb stderr "")
          then t ← decode lib stderr; mret (py_strip t)
          else mret "Command failed");
       raise (Exn RuntimeError ("simctl command failed: " +:+ error_msg))
     else
       t ← decode lib stdout; mret (py_strip t))
    is_FileNotFoundError
    (fun _ =>
       raise (Exn RuntimeError
                "xcrun simctl not found. Make sure Xcode is installed.")).

(** *** The handlers *)

Definition _list_devices (args : gmap string pyval) : M string :=
  let cmd_args := [PStr "list"] in
  let cmd_args :=
    if py_eq_str (get args "format") "json"
    then cmd_args ++ [PStr "-j"] else cmd_args in
  let cmd_args := cmd_args ++ [PStr "devices"] in
  cmd_args ←
    (if truthy (get args "filter")
     then f ← getitem args "filter"; mret (cmd_args ++ [f])
     else mret cmd_args);
  result ← _run_simctl_command cmd_args;
  if py_eq_str (get args "format") "json" then
    try_except
      (data ← lift_result (json_loads lib result);
       mret (json_dumps lib (Some 2%nat) data))
      is_JSONDecodeError
      (fun _ => mret result)
  else mret result.

Definition _boot_device (args : gmap string pyval) : M string :=
  device ← getitem args "device";
  let cmd_args := [PStr "boot"; device] in
  cmd_args ←
    (if truthy (get args "arch")
     then arch ← getitem args "arch";
          mret (cmd_args ++ [PStr ("--arch=" +:+ py_str arch)])
     else mret cmd_args);
  _ ← _run_simctl_command cmd_args;
  device ← getitem args "device";
  mret ("Successfully booted device: " +:+ py_str device).

Definition _shutdown_device (args : gmap string pyval) : M string :=
  device ← getitem args "device";
  let cmd_args := [PStr "shutdown"; device] in
  _ ← _run_simctl_command cmd_args;
  device ← getitem args "device";
  mret ("Successfully shutdown device: " +:+ py_str device).

Definition _create_device (args : gmap string pyval) : M string :=
  name ← getitem args "name";
  device_type ← getitem args "device_type";
  let cmd_args := [PStr "create"; name; device_type] in
  cmd_args ←
    (if truthy (get args "runtime")
     then runtime ← getitem args "runtime"; mret (cmd_args ++ [runtime])
     else mret cmd_args);
  result ← _run_simctl_command cmd_args;
  name ← getitem args "name";
  mret ("Created device '" +:+ py_str name +:+ "': " +:+ result).

Definition _delete_device (args : gmap string pyval) : M string :=
  devices ← getitem args "devices";
  cmd_args ← list_concat [PStr "delete"] devices;
  _ ← _run_simctl_command cmd_args;
  devices ← getitem args "devices";
  joined ← py_join ", " devices;
  mret ("Successfully deleted devices: " +:+ joined).

Definition _install_app (args : gmap string pyval) : M string :=
  device ← getitem args "device";
  app_path ← getitem args "app_path";
  let cmd_args := [PStr "install"; device; app_path] in
  _ ← _run_simctl_command cmd_args;
  app_path ← getitem args "app_path";
  device ← getitem args "device";
  mret ("Successfully installed app from " +:+ py_str app_path +:+ " to "
        +:+ py_str device).

Definition _launch_app (args : gmap string pyval) : M string :=
  let cmd_args := [PStr "launch"] in
  let cmd_args :=
    if truthy (get args "wait_for_debugger")
    then cmd_args ++ [PStr "--wait-for-debugger"] else cmd_args in
  let console_mode := get_or args "console_mode" (PStr "none") in
  let cmd_args :=
    if py_eq_str console_mode "console"
    then cmd_args ++ [PStr "--console"]
    else if py_eq_str console_mode "console-pty"
         then cmd_args ++ [PStr "--console-pty"]
         else cmd_args in
  device ← getitem args "device";
  bundle_id ← getitem args "bundle_id";
  let cmd_args := cmd_args ++ [device; bundle_id] in
  cmd_args ←
    (if truthy (get args "args")
     then a ← getitem args "args"; items ← py_iter a;
          mret (cmd_args ++ items)
     else mret cmd_args);
  result ← _run_simctl_command cmd_args;
  bundle_id ← getitem args "bundle_id";
  device ← getitem args "device";
  mret ("Launched " +:+ py_str bundle_id +:+ " on " +:+ py_str device
        +:+ ": " +:+ result).

Definition _terminate_app (args : gmap string pyval) : M string :=
  device ← getitem args "device";
  bundle_id ← getitem args "bundle_id";
  let cmd_args := [PStr "terminate"; device; bundle_id] in
  _ ← _run_simctl_command cmd_args;
  bundle_id ← getitem args "bundle_id";
  device ← getitem args "device";
  mret ("Terminated " +:+ py_str bundle_id +:+ " on " +:+ py_str device).

Definition _screenshot (args : gmap string pyval) : M string :=
  device ← getitem args "device";
  let cmd_args := [PStr "io"; device; PStr "screenshot"] in
  cmd_args ←
    (if negb (py_eq_str (get_or args "format" (PStr "png")) "png")
     then f ← getitem args "format";
          mret (cmd_args ++ [PStr ("--type=" +:+ py_str f)])
     else mret cmd_args);
  cmd_args ←
    (if negb (py_eq_str (get_or args "display" (PStr "internal")) "internal")
     then d ← getitem args "display";
          mret (cmd_args ++ [PStr ("--display=" +:+ py_str d)])
     else mret cmd_args);
  output_path ← getitem args "output_path";
  let cmd_args := cmd_args ++ [output_path] in
  _ ← _run_simctl_command cmd_args;
  output_path ← getitem args "output_path";
  mret ("Screenshot saved to " +:+ py_str output_path).

Definition _record_video (args : gmap string pyval) : M string :=
  device ← getitem args "device";
  let cmd_args := [PStr "io"; device; PStr "recordVideo"] in
  cmd_args ←
    (if negb (py_eq_str (get_or args "codec" (PStr "hevc")) "hevc")
     then c ← getitem args "codec";
          mret (cmd_args ++ [PStr ("--codec=" +:+ py_str c)])
     else mret cmd_args);
  cmd_args ←
    (if negb (py_eq_str (get_or args "display" (PStr "internal")) "internal")
     then d ← getitem args "display";
          mret (cmd_args ++ [PStr ("--display=" +:+ py_str d)])
     else mret cmd_args);
  output_path ← getitem args "output_path";
  let cmd_args := cmd_args ++ [output_path] in
  _ ← _run_simctl_command cmd_args;
  output_path ← getitem args "output_path";
  mret ("Started video recording to " +:+ py_str output_path
        +:+ ". Send SIGINT (Ctrl+C) to stop.").

(** The [with] block only closes the file when it is left: the file was
    opened with [delete=False], so it stays on disk, also when the block is
    left by an exception.  [payload_file] is bound inside the block. *)
Definition _push_notification (args : gmap string pyval) : M string :=
  payload_file ←
    (f ← NamedTemporaryFile;
     payload ← getitem args "payload";
     _ ← file_write f (json_dumps lib None payload);
     mret f);
  try_finally
    (device ← getitem args "device";
     let cmd_args := [PStr "push"; device] in
     cmd_args ←
       (if truthy (get args "bundle_id")
        then b ← getitem args "bundle_id"; mret (cmd_args ++ [b])
        else mret cmd_args);
     let cmd_args := cmd_args ++ [PStr payload_file] in
     _ ← _run_simctl_command cmd_args;
     mret ("Push notification sent to "
           +:+ py_str (get_or args "bundle_id"
                         (PStr "app specified in payload"))))
    (os_unlink payload_file).

Definition _privacy_control (args : gmap string pyval) : M string :=
  device ← getitem args "device";
  action ← getitem args "action";
  service ← getitem args "service";
  let cmd_args := [PStr "privacy"; device; action; service] in
  cmd_args ←
    (if truthy (get args "bundle_id")
     then b ← getitem args "bundle_id"; mret (cmd_args ++ [b])
     else mret cmd_args);
  _ ← _run_simctl_command cmd_args;
  action ← getitem args "action";
  let action_desc :=
    if negb (py_eq_str action "reset") then py_str action +:+ "ed"
    else "reset" in
  service ← getitem args "service";
  mret ("Privacy permission " +:+ action_desc +:+ " for " +:+ py_str service
        +:+ " service").

Definition _set_location (args : gmap string pyval) : M string :=
  device ← getitem args "device";
  action ← getitem args "action";
  let cmd_args := [PStr "location"; device; action] in
  action ← getitem args "action";
  cmd_args ←
    (if py_eq_str action "set" then
       if negb (truthy (get args "latitude"))
          || negb (truthy (get args "longitude"))
       then raise (Exn ValueError
                     "Latitude and longitude required for 'set' action")
       else
         latitude ← getitem args "latitude";
         longitude ← getitem args "longitude";
         mret (cmd_args
               ++ [PStr (py_str latitude +:+ "," +:+ py_str longitude)])
     else if py_eq_str action "run" then
       if negb (truthy (get args "scenario"))
       then raise (Exn ValueError "Scenario required for 'run' action")
       else scenario ← getitem args "scenario"; mret (cmd_args ++ [scenario])
     else mret cmd_args);
  result ← _run_simctl_command cmd_args;
  if negb (String.eqb result "") then mret result
  else
    action ← getitem args "action";
    mret ("Location " +:+ py_str action +:+ " completed").

Definition _status_bar_override (args : gmap string pyval) : M string :=
  device ← getitem args "device";
  action ← getitem args "action";
  let cmd_args := [PStr "status_bar"; device; action] in
  action ← getitem args "action";
  cmd_args ←
    (if py_eq_str action "override" then
       cmd_args ←
         (if truthy (get args "time")
          then t ← getitem args "time"; mret (cmd_args ++ [PStr "--time"; t])
          else mret cmd_args);
       cmd_args ←
         (if truthy (get args "data_network")
          then d ← getitem args "data_network";
               mret (cmd_args ++ [PStr "--dataNetwork"; d])
          else mret cmd_args);
       cmd_args ←
         (if is_not_None (get args "wifi_bars")
          then n ← getitem args "wifi_bars";
               mret (cmd_args ++ [PStr "--wifiBars"; PStr (py_str n)])
          else mret cmd_args);
       cmd_args ←
         (if is_not_None (get args "cellular_bars")
          then n ← getitem args "cellular_bars";
               mret (cmd_args ++ [PStr "--cellularBars"; PStr (py_str n)])
          else mret cmd_args);
       cmd_args ←
         (if is_not_None (get args "battery_level")
          then n ← getitem args "battery_level";
               mret (cmd_args ++ [PStr "--batteryLevel"; PStr (py_str n)])
          else mret cmd_args);
       (if truthy (get args "battery_state")
        then s ← getitem args "battery_state";
             mret (cmd_args ++ [PStr "--batteryState"; s])
        else mret cmd_args)
     else mret cmd_args);
  result ← _run_simctl_command cmd_args;
  if negb (String.eqb result "") then mret result
  else
    action ← getitem args "action";
    mret ("Status bar " +:+ py_str action +:+ " completed").

Definition _ui_appearance (args : gmap string pyval) : M string :=
  device ← getitem args "device";
  let cmd_args := [PStr "ui"; device; PStr "appearance"] in
  cmd_args ←
    (if truthy (get args "appearance")
     then a ← getitem args "appearance"; mret (cmd_args ++ [a])
     else mret cmd_args);
  _run_simctl_command cmd_args.

(** *** [handle_call_tool] *)

(** The [if]/[elif] chain on the tool name. *)
Definition dispatch (name : string) (arguments : gmap string pyval)
  : M string :=
  if String.eqb name "simctl_list_devices" then _list_devices arguments
  else if String.eqb name "simctl_boot_device" then _boot_device arguments
  else if String.eqb name "simctl_shutdown_device"
  then _shutdown_device arguments
  else if String.eqb name "simctl_create_device"
  then _create_device arguments
  else if String.eqb name "simctl_delete_device"
  then _delete_device arguments
  else if String.eqb name "simctl_install_app" then _install_app arguments
  else if String.eqb name "simctl_launch_app" then _launch_app arguments
  else if String.eqb name "simctl_terminate_app"
  then _terminate_app arguments
  else if String.eqb name "simctl_screenshot" then _screenshot arguments
  else if String.eqb name "simctl_record_video"
  then _record_video arguments
  else if String.eqb name "simctl_push_notification"
  then _push_notification arguments
  else if String.eqb name "simctl_privacy_control"
  then _privacy_control arguments
  else if String.eqb name "simctl_set_location"
  then _set_location arguments
  else if String.eqb name "simctl_status_bar_override"
  then _status_bar_override arguments
  else if String.eqb name "simctl_ui_appearance"
  then _ui_appearance arguments
  else raise (Exn ValueError ("Unknown tool: " +:+ name)).

Definition text_content (s : string) : TextContent :=
  {| type := "text"; text := s |}.

Definition handle_call_tool (name : string) (arguments : gmap string pyval)
  : M (list TextContent) :=
  try_except
    (result ← dispatch name arguments;
     mret [text_content result])
    (fun _ => true)
    (fun e => mret [text_content ("Error: " +:+ exn_str e)]).

End Server.

(** ** The tool registry

    The schemas announced by [handle_list_tools], without the descriptive
    texts: per tool its name, its properties (JSON type, enumeration,
    default, numeric range) and the names it requires. *)
Record Property : Type := {
  prop_name : string;
  prop_type : string;
  prop_enum : option (list string);
  prop_default : option pyval;
  prop_range : option (Z * Z)
}.

Record Tool : Type := {
  name : string;
  properties : list Property;
  required : list string
}.

Definition prop (n t : string) : Property :=
  {| prop_name := n; prop_type := t; prop_enum := None;
     prop_default := None; prop_range := None |}.

Definition prop_enumerated (n : string) (e : list string)
    (d : option pyval) : Property :=
  {| prop_name := n; prop_type := "string"; prop_enum := Some e;
     prop_default := d; prop_range := None |}.

Definition prop_ranged (n : string) (lo hi : Z) : Property :=
  {| prop_name := n; prop_type := "integer"; prop_enum := None;
     prop_default := None; prop_range := Some (lo, hi) |}.

Definition handle_list_tools : list Tool :=
  [ {| name := "simctl_list_devices";
       properties :=
         [ prop_enumerated "format" ["json"; "text"] (Some (PStr "json"));
           prop "filter" "string" ];
       required := [] |};
    {| name := "simctl_boot_device";
       properties :=
         [ prop "device" "string";
           prop_enumerated "arch" ["arm64"; "x86_64"] None ];
       required := ["device"] |};
    {| name := "simctl_shutdown_device";
       properties := [ prop "device" "string" ];
       required := ["device"] |};
    {| name := "simctl_create_device";
       properties :=
         [ prop "name" "string"; prop "device_type" "string";
           prop "runtime" "string" ];
       required := ["name"; "device_type"] |};
    {| name := "simctl_delete_device";
       properties := [ prop "devices" "array" ];
       required := ["devices"] |};
    {| name := "simctl_install_app";
       properties := [ prop "device" "string"; prop "app_path" "string" ];
       required := ["device"; "app_path"] |};
    {| name := "simctl_launch_app";
       properties :=
         [ prop "device" "string"; prop "bundle_id" "string";
           {| prop_name := "wait_for_debugger"; prop_type := "boolean";
              prop_enum := None; prop_default := Some (PBool false);
              prop_range := None |};
           prop_enumerated "console_mode" ["none"; "console"; "console-pty"]
             (Some (PStr "none"));
           prop "args" "array" ];
       required := ["device"; "bundle_id"] |};
    {| name := "simctl_terminate_app";
       properties := [ prop "device" "string"; prop "bundle_id" "string" ];
       required := ["device"; "bundle_id"] |};
    {| name := "simctl_screenshot";
       properties :=
         [ prop "device" "string"; prop "output_path" "string";
           prop_enumerated "format" ["png"; "tiff"; "bmp"; "gif"; "jpeg"]
             (Some (PStr "png"));
           prop_enumerated "display" ["internal"; "external"]
             (Some (PStr "internal")) ];
       required := ["device"; "output_path"] |};
    {| name := "simctl_record_video";
       properties :=
         [ prop "device" "string"; prop "output_path" "string";
           prop_enumerated "codec" ["h264"; "hevc"] (Some (PStr "hevc"));
           prop_enumerated "display" ["internal"; "external"]
             (Some (PStr "internal")) ];
       required := ["device"; "output_path"] |};
    {| name := "simctl_push_notification";
       properties :=
         [ prop "device" "string"; prop "bundle_id" "string";
           prop "payload" "object" ];
       required := ["device"; "payload"] |};
    {| name := "simctl_privacy_control";
       properties :=
         [ prop "device" "string";
           prop_enumerated "action" ["grant"; "revoke"; "reset"] None;
           prop_enumerated "service"
             ["all"; "calendar"; "contacts-limited"; "contacts"; "location";
              "location-always"; "photos-add"; "photos"; "media-library";
              "microphone"; "motion"; "reminders"; "siri"] None;
           prop "bundle_id" "string" ];
       required := ["device"; "action"; "service"] |};
    {| name := "simctl_set_location";
       properties :=
         [ prop "device" "string";
           prop_enumerated "action" ["set"; "clear"; "list"; "run"] None;
           prop "latitude" "number"; prop "longitude" "number";
           prop "scenario" "string" ];
       required := ["device"; "action"] |};
    {| name := "simctl_status_bar_override";
       properties :=
         [ prop "device" "string";
           prop_enumerated "action" ["list"; "clear"; "override"] None;
           prop "time" "string";
           prop_enumerated "data_network"
             ["hide"; "wifi"; "3g"; "4g"; "lte"; "lte-a"; "lte+"; "5g";
              "5g+"; "5g-uwb"; "5g-uc"] None;
           prop_ranged "wifi_bars" 0 3;
           prop_ranged "cellular_bars" 0 4;
           prop_ranged "battery_level" 0 100;
           prop_enumerated "battery_state"
             ["charging"; "charged"; "discharging"] None ];
       required := ["device"; "action"] |};
    {| name := "simctl_ui_appearance";
       properties :=
         [ prop "device" "string";
           prop_enumerated "appearance" ["light"; "dark"] None ];
       required := ["device"] |} ].

Definition find_tool (nm : string) : option Tool :=
  List.find (fun t => String.eqb (name t) nm) handle_list_tools.

(** The enumeration the registry declares for parameter [p] of tool [nm],
    if it declares one. *)
Definition declared_enum (nm p : string) : option (list string) :=
  match find_tool nm with
  | Some t =>
      match List.find (fun pr => String.eqb (prop_name pr) p)
              (properties t) with
      | Some pr => prop_enum pr
      | None => None
      end
  | None => None
  end.

(** ** A concrete setting to run the handlers in *)

(** Stand-ins for the library routines the development leaves open. *)
Definition sample_lib : PyLib :=
  {| float_repr := fun _ => "1.5";
     container_repr := fun _ => "[]";
     json_dumps := fun _ _ => "{}";
     json_loads := fun _ => inl (Exn JSONDecodeError "Expecting value");
     decode_error_str := fun _ => "invalid start byte" |}.

(** A world with no files and no effects so far, whose launcher answers
    every command line with [r]. *)
Definition world_answering (r : spawn_result) : world :=
  {| launch := fun _ => r;
     mktemp_stem := fun _ => "/tmp/tmpk2x9w4qa";
     files := ∅;
     trace := [] |}.

(** ** Vocabulary of the properties *)

(** The world after a launch of [cmd]: the launch is recorded, nothing else
    has changed. *)
Definition answered (cmd : list pyval) (w : world) : world :=
  log (EvSpawn cmd) w.

(** A computation that returns the same value in every world and leaves
    the world alone. *)
Definition noeffect {A} (m : M A) : Prop :=
  exists a, forall w, m w = (Returns a, w).

(** A computation that leaves the world alone, whatever its outcome. *)
Definition stateless {A} (m : M A) : Prop :=
  exists o, forall w, m w = (o, w).

Definition coordinates_required : exn :=
  Exn ValueError "Latitude and longitude required for 'set' action".

Definition scenario_required : exn :=
  Exn ValueError "Scenario required for 'run' action".

(** The errors a handler can raise by itself while it builds a command
    line: a missing key, a value of the wrong type where a list is needed,
    and the two requirements of [_set_location]. *)
Definition local_error (e : exn) : Prop :=
  exn_cls e = KeyError \/ exn_cls e = TypeError
  \/ e = coordinates_required \/ e = scenario_required.

(** A world-independent computation that returns or raises a local
    error. *)
Definition local {A} (m : M A) : Prop :=
  exists o, (forall w, m w = (o, w))
            /\ match o with
               | Returns _ => True
               | Raises e => local_error e
               | Blocks => False
               end.

(** The two ways a handler can go: it gives up with a local error before
    anything is launched, or it launches exactly one command line. *)
Definition quiet_failure {A} (w : world) (r : outcome A * world) : Prop :=
  exists e, r.1 = Raises e /\ local_error e
            /\ spawned (trace r.2) = spawned (trace w).

Definition launched {A} (w : world) (r : outcome A * world) : Prop :=
  exists cmd, spawned (trace r.2) = spawned (trace w) ++ [cmd].

Definition settled {A} (w : world) (r : outcome A * world) : Prop :=
  quiet_failure w r \/ launched w r.

Definition shape {A} (m : M A) : Prop := forall w, settled w (m w).

(** The path the payload file of a push notification gets in world [w]. *)
Definition payload_path (w : world) : string :=
  mktemp_stem w (files w) +:+ ".json".

(** The life of a payload file [p] with content [c] across a call that
    started in world [w] and ended with [r]: created, written, at most one
    launch, unlinked, and gone at the end. *)
Definition file_cycle {A} (p c : string) (w : world)
    (r : outcome A * world) : Prop :=
  files r.2 !! p = None
  /\ exists between,
       trace r.2
       = trace w ++ [EvCreate p; EvWrite p c] ++ between ++ [EvUnlink p]
       /\ (between = [] \/ exists cmd, between = [EvSpawn cmd]).

(** The flag spelling of each declared console mode of [simctl_launch_app],
    as a table. *)
Definition console_mode_table : list (string * list string) :=
  [ ("none", []);
    ("console", ["--console"]);
    ("console-pty", ["--console-pty"]) ].

(** A call that ended with the [KeyError] of a key that is among [req] and
    is not in [args], nothing having been launched. *)
Definition missing_parameter {A} (req : list string)
    (args : gmap string pyval) (w : world) (r : outcome A * world) : Prop :=
  exists q, q ∈ req /\ args !! q = None
            /\ r.1 = Raises (key_error q)
            /\ spawned (trace r.2) = spawned (trace w).

(** The number zero, as an [int] or as a [float] of either sign. *)
Definition is_zero_number (v : pyval) : bool :=
  match v with
  | PInt z => (z =? 0)%Z
  | PFloat f => PrimFloat.eqb f PrimFloat.zero
  | _ => false
  end.

(** A handler that fails locally whatever the world, or that amounts to one
    run of the executor followed by steps that leave the world alone. *)
Definition factored (lib : PyLib) {A} (m : M A) : Prop :=
  (exists e, local_error e /\ forall w, m w = (Raises e, w))
  \/ (exists a (k : string -> M A),
        (forall s, stateless (k s))
        /\ forall w, m w = (_run_simctl_command lib a ≫= k) w).

(** A call that ended in an exception without launching anything. *)
Definition rejected {A} (w : world) (r : outcome A * world) : Prop :=
  exists e, r.1 = Raises e /\ spawned (trace r.2) = spawned (trace w).

(** A call that launched [xcrun simctl] once, with arguments [a], and whose
    outcome is the executor's whenever the executor raises or never
    returns. *)
Definition follows_executor (lib : PyLib) {A} (w : world)
    (r : outcome A * world) : Prop :=
  exists a,
    spawned (trace r.2)
    = spawned (trace w) ++ [PStr "xcrun" :: PStr "simctl" :: a]
    /\ (forall e, (_run_simctl_command lib a w).1 = Raises e ->
                  r.1 = Raises e)
    /\ ((_run_simctl_command lib a w).1 = Blocks -> r.1 = Blocks).

(** The two ways a request can go, seen from the caller. *)
Definition served (lib : PyLib) {A} (w : world) (r : outcome A * world)
  : Prop := rejected w r \/ follows_executor lib w r.

(** The default the registry declares for parameter [p] of tool [nm], if it
    declares one. *)
Definition declared_default (nm p : string) : option pyval :=
  match find_tool nm with
  | Some t =>
      match List.find (fun pr => String.eqb (prop_name pr) p)
              (properties t) with
      | Some pr => prop_default pr
      | None => None
      end
  | None => None
  end.

(** The numeric range the registry declares for parameter [p] of tool
    [nm], if it declares one. *)
Definition declared_range (nm p : string) : option (Z * Z) :=
  match find_tool nm with
  | Some t =>
      match List.find (fun pr => String.eqb (prop_name pr) p)
              (properties t) with
      | Some pr => prop_range pr
      | None => None
      end
  | None => None
  end.

(** The tokens of an optional string parameter that is passed as it is
    when it is there and not empty. *)
Definition token_of (v : option string) : list pyval :=
  match v with
  | Some s => if String.eqb s "" then [] else [PStr s]
  | None => []
  end.

(** The tokens of an optional string parameter passed behind a flag of its
    own when it is there and not empty. *)
Definition flagged (flag : string) (v : option string) : list pyval :=
  match v with
  | Some s => if String.eqb s "" then [] else [PStr flag; PStr s]
  | None => []
  end.

(** The tokens of an optional integer passed behind a flag of its own
    whenever it is there. *)
Definition flagged_int (flag : string) (v : option Z) : list pyval :=
  match v with
  | Some z => [PStr flag; PStr (pretty z)]
  | None => []
  end.

(** The token "prefix value" of an optional string parameter that is left
    out when it is absent or equal to [dflt]. *)
Definition unless_default (prefix dflt : string) (v : option string)
  : list pyval :=
  match v with
  | Some s => if String.eqb s dflt then [] else [PStr (prefix +:+ s)]
  | None => []
  end.

(** * Properties *)

(** ** Text helpers on examples *)

Example strip_ascii : py_strip (" " +:+ "ok" +:+ " ") = "ok".
Proof. reflexivity. Qed.

Example strip_newline :
  py_strip ("Invalid device" +:+ String "010" "") = "Invalid device".
Proof. reflexivity. Qed.

(** U+00A0 before and U+2003 after the text are white space too. *)
Example strip_unicode :
  py_strip (String "194" (String "160" "ok")
            +:+ String "226" (String "128" (String "131" "")))
  = "ok".
Proof. reflexivity. Qed.

(** A lone continuation byte and an overlong form are not UTF-8. *)
Example utf8_rejects :
  utf8_valid (String "128" "") = false
  /\ utf8_valid (String "192" (String "128" "")) = false
  /\ utf8_valid (String "195" (String "169" "")) = true.
Proof. repeat split; reflexivity. Qed.

(** ** The trace *)

Lemma spawned_app (t1 t2 : list event) :
  spawned (t1 ++ t2) = spawned t1 ++ spawned t2.
Proof.
  induction t1 as [|ev t1 IH]; simpl; [reflexivity|].
  destruct ev; simpl; rewrite IH; reflexivity.
Qed.

Lemma spawned_answered (cmd : list pyval) (w : world) :
  spawned (trace (answered cmd w)) = spawned (trace w) ++ [cmd].
Proof. unfold answered, log; simpl. rewrite spawned_app. reflexivity. Qed.

Lemma app_one_neq {A} (l : list A) (x : A) : l ++ [x] <> l.
Proof.
  intros H. apply (f_equal length) in H.
  rewrite length_app in H; simpl in H. lia.
Qed.


(** ** Evaluating binds *)

Lemma bind_ret {A B} (a : A) (f : A -> M B) (w : world) :
  (mret a ≫= f) w = f a w.
Proof. reflexivity. Qed.

Lemma bind_raise {A B} (e : exn) (f : A -> M B) (w : world) :
  (raise e ≫= f) w = (Raises e, w).
Proof. reflexivity. Qed.

Lemma bind_getitem {B} (args : gmap string pyval) (k : string)
    (f : pyval -> M B) (w : world) :
  (getitem args k ≫= f) w
  = match args !! k with
    | Some v => f v w
    | None => (Raises (key_error k), w)
    end.
Proof. unfold getitem, mbind, M_bind. destruct (args !! k); reflexivity. Qed.

Lemma bind_assoc {A B C} (m : M A) (f : A -> M B) (k : B -> M C)
    (w : world) :
  ((m ≫= f) ≫= k) w = (m ≫= (fun a => f a ≫= k)) w.
Proof.
  unfold mbind, M_bind. destruct (m w) as [[a|e|] w']; reflexivity.
Qed.

Lemma get_Some (args : gmap string pyval) (k : string) (v : pyval) :
  args !! k = Some v -> get args k = v.
Proof. unfold get. intros ->. reflexivity. Qed.

Lemma get_None (args : gmap string pyval) (k : string) :
  args !! k = None -> get args k = PNone.
Proof. unfold get. intros ->. reflexivity. Qed.

Lemma get_or_Some (args : gmap string pyval) (k : string) (d v : pyval) :
  args !! k = Some v -> get_or args k d = v.
Proof. unfold get_or. intros ->. reflexivity. Qed.

Lemma get_or_None (args : gmap string pyval) (k : string) (d : pyval) :
  args !! k = None -> get_or args k d = d.
Proof. unfold get_or. intros ->. reflexivity. Qed.

Lemma bind_noeffect {A B} (m : M A) (k : A -> M B) (w : world) :
  noeffect m -> exists a, (m ≫= k) w = k a w.
Proof.
  intros [a Ha]. exists a. unfold mbind, M_bind. rewrite Ha. reflexivity.
Qed.

(** ** Computations without effect *)

Lemma noeffect_ret {A} (a : A) : noeffect (mret a).
Proof. exists a. reflexivity. Qed.

Lemma noeffect_bind {A B} (m : M A) (k : A -> M B) :
  noeffect m -> (forall a, noeffect (k a)) -> noeffect (m ≫= k).
Proof.
  intros [a Ha] Hk. destruct (Hk a) as [b Hb]. exists b. intros w.
  unfold mbind, M_bind. rewrite Ha. apply Hb.
Qed.

Lemma noeffect_if {A} (c : bool) (m1 m2 : M A) :
  noeffect m1 -> noeffect m2 -> noeffect (if c then m1 else m2).
Proof. destruct c; auto. Qed.

(** The three guards under which a handler reads an optional key all imply
    that the key is there. *)
Lemma noeffect_guard_truthy {A} (args : gmap string pyval) (k : string)
    (f : pyval -> M A) (m : M A) :
  (forall v, noeffect (f v)) -> noeffect m ->
  noeffect (if truthy (get args k) then getitem args k ≫= f else m).
Proof.
  intros Hf Hm. unfold get, getitem.
  destruct (args !! k) as [v|]; simpl; [|assumption].
  destruct (truthy v); [|assumption].
  destruct (Hf v) as [a Ha]. exists a. intros w. apply Ha.
Qed.

Lemma noeffect_guard_not_None {A} (args : gmap string pyval) (k : string)
    (f : pyval -> M A) (m : M A) :
  (forall v, noeffect (f v)) -> noeffect m ->
  noeffect (if is_not_None (get args k) then getitem args k ≫= f else m).
Proof.
  intros Hf Hm. unfold get, getitem.
  destruct (args !! k) as [v|]; simpl; [|assumption].
  destruct (is_not_None v); [|assumption].
  destruct (Hf v) as [a Ha]. exists a. intros w. apply Ha.
Qed.

Lemma noeffect_guard_differs {A} (args : gmap string pyval) (k d : string)
    (f : pyval -> M A) (m : M A) :
  (forall v, noeffect (f v)) -> noeffect m ->
  noeffect (if negb (py_eq_str (get_or args k (PStr d)) d)
            then getitem args k ≫= f else m).
Proof.
  intros Hf Hm. unfold get_or, getitem.
  destruct (args !! k) as [v|]; simpl.
  - destruct (negb (py_eq_str v d)); [|assumption].
    destruct (Hf v) as [a Ha]. exists a. intros w. apply Ha.
  - rewrite String.eqb_refl. assumption.
Qed.

Create HintDb noeff.
#[export] Hint Resolve noeffect_ret noeffect_guard_truthy
  noeffect_guard_not_None noeffect_guard_differs : noeff.
#[export] Hint Extern 2 (noeffect (mbind _ _)) =>
  apply noeffect_bind; [|intros ?] : noeff.
#[export] Hint Extern 3 (noeffect (if _ then _ else _)) =>
  apply noeffect_if : noeff.

Section Executor.

Context (lib : PyLib).

(** ** The executor *)

(** Whatever happens to the child process, [_run_simctl_command] records
    one launch, of [xcrun simctl] followed by its arguments, and touches
    nothing else. *)
Lemma run_world (a : list pyval) (w : world) :
  (_run_simctl_command lib a w).2
  = answered (PStr "xcrun" :: PStr "simctl" :: a) w.
Proof.
  unfold _run_simctl_command, try_except, create_subprocess_exec, mbind,
    M_bind, communicate, decode, raise, mret, M_ret.
  simpl.
  destruct (launch w _) as [e|[rc out err|out err]]; simpl.
  - destruct (is_FileNotFoundError e); reflexivity.
  - repeat case_match; simplify_eq/=; reflexivity.
  - reflexivity.
Qed.

Lemma run_not_found (a : list pyval) (w : world) (e : exn) :
  launch w (PStr "xcrun" :: PStr "simctl" :: a) = SpawnRaises e ->
  is_FileNotFoundError e = true ->
  (_run_simctl_command lib a w).1
  = Raises (Exn RuntimeError
              "xcrun simctl not found. Make sure Xcode is installed.").
Proof.
  intros Hl He.
  unfold _run_simctl_command, try_except, create_subprocess_exec, mbind,
    M_bind, raise.
  simpl. rewrite Hl. simpl. rewrite He. reflexivity.
Qed.

Lemma run_spawn_error (a : list pyval) (w : world) (e : exn) :
  launch w (PStr "xcrun" :: PStr "simctl" :: a) = SpawnRaises e ->
  is_FileNotFoundError e = false ->
  (_run_simctl_command lib a w).1 = Raises e.
Proof.
  intros Hl He.
  unfold _run_simctl_command, try_except, create_subprocess_exec, mbind,
    M_bind, raise.
  simpl. rewrite Hl. simpl. rewrite He. reflexivity.
Qed.

Lemma run_blocks (a : list pyval) (w : world) (out err : string) :
  launch w (PStr "xcrun" :: PStr "simctl" :: a) = Spawned (RunsOn out err) ->
  (_run_simctl_command lib a w).1 = Blocks.
Proof.
  intros Hl.
  unfold _run_simctl_command, try_except, create_subprocess_exec, mbind,
    M_bind, communicate.
  simpl. rewrite Hl. reflexivity.
Qed.

Lemma run_exit_zero (a : list pyval) (w : world) (out err : string) :
  launch w (PStr "xcrun" :: PStr "simctl" :: a) = Spawned (Exits 0 out err) ->
  utf8_valid out = true ->
  (_run_simctl_command lib a w).1 = Returns (py_strip out).
Proof.
  intros Hl Hv.
  unfold _run_simctl_command, try_except, create_subprocess_exec, mbind,
    M_bind, communicate, decode, mret, M_ret.
  simpl. rewrite Hl. simpl. rewrite Hv. reflexivity.
Qed.

Lemma run_exit_nonzero (a : list pyval) (w : world) (rc : Z)
    (out err : string) :
  launch w (PStr "xcrun" :: PStr "simctl" :: a) = Spawned (Exits rc out err) ->
  rc <> 0%Z ->
  utf8_valid err = true ->
  (_run_simctl_command lib a w).1
  = Raises (Exn RuntimeError
              ("simctl command failed: "
               +:+ (if String.eqb err "" then "Command failed"
                    else py_strip err))).
Proof.
  intros Hl Hrc Hv.
  unfold _run_simctl_command, try_except, create_subprocess_exec, mbind,
    M_bind, communicate, decode, mret, M_ret, raise.
  simpl. rewrite Hl. simpl.
  destruct (Z.eqb_spec rc 0) as [->|_]; [contradiction|]. simpl.
  destruct (String.eqb err ""); simpl; [reflexivity|].
  rewrite Hv. reflexivity.
Qed.


Lemma bind_run {B} (a : list pyval) (f : string -> M B) (w : world) :
  (_run_simctl_command lib a ≫= f) w
  = match (_run_simctl_command lib a w).1 with
    | Returns s => f s (answered (PStr "xcrun" :: PStr "simctl" :: a) w)
    | Raises e => (Raises e, answered (PStr "xcrun" :: PStr "simctl" :: a) w)
    | Blocks => (Blocks, answered (PStr "xcrun" :: PStr "simctl" :: a) w)
    end.
Proof.
  unfold mbind, M_bind. pose proof (run_world a w) as Hw.
  destruct (_run_simctl_command lib a w) as [[s|e|] w'];
    simpl in *; subst; reflexivity.
Qed.

(** C3, as amended: the executor launches [xcrun simctl] followed by the
    arguments.  If the executable cannot be located it fails with the fixed
    "xcrun simctl not found" error.  If the process exits with a non-zero
    status it fails with "simctl command failed: " followed by the decoded
    standard-error text with surrounding white space trimmed, or by the
    fixed text "Command failed" when standard error is empty; the exit
    status is no part of the failure, so any two non-zero statuses with the
    same standard error fail alike.  If the process exits with status zero
    it returns the decoded standard output with surrounding white space
    trimmed. *)
Theorem executor_outcomes (a : list pyval) (w : world) (r : spawn_result) :
  launch w (PStr "xcrun" :: PStr "simctl" :: a) = r ->
  (forall e, r = SpawnRaises e -> is_FileNotFoundError e = true ->
     (_run_simctl_command lib a w).1
     = Raises (Exn RuntimeError
                 "xcrun simctl not found. Make sure Xcode is installed."))
  /\ (forall rc out err,
        r = Spawned (Exits rc out err) -> rc <> 0%Z ->
        utf8_valid err = true ->
        (_run_simctl_command lib a w).1
        = Raises (Exn RuntimeError
                    ("simctl command failed: "
                     +:+ (if String.eqb err "" then "Command failed"
                          else py_strip err))))
  /\ (forall rc rc' out out' err w',
        r = Spawned (Exits rc out err) -> rc <> 0%Z -> rc' <> 0%Z ->
        launch w' (PStr "xcrun" :: PStr "simctl" :: a)
        = Spawned (Exits rc' out' err) ->
        (_run_simctl_command lib a w).1 = (_run_simctl_command lib a w').1)
  /\ (forall out err,
        r = Spawned (Exits 0 out err) -> utf8_valid out = true ->
        (_run_simctl_command lib a w).1 = Returns (py_strip out)).
Proof.
  intros Hl. repeat split.
  - intros e -> He. eapply run_not_found; eassumption.
  - intros rc out err -> Hrc Hv. eapply run_exit_nonzero; eassumption.
  - intros rc rc' out out' err w' -> Hrc Hrc' Hl'.
    unfold _run_simctl_command, try_except, create_subprocess_exec, mbind,
      M_bind, communicate, decode, mret, M_ret, raise.
    simpl. rewrite Hl, Hl'. simpl.
    destruct (Z.eqb_spec rc 0) as [->|_]; [contradiction|].
    destruct (Z.eqb_spec rc' 0) as [->|_]; [contradiction|].
    simpl. destruct (String.eqb err ""); simpl; [reflexivity|].
    destruct (utf8_valid err); reflexivity.
  - intros out err -> Hv. eapply run_exit_zero; eassumption.
Qed.

End Executor.

Lemma executor_outcomes_witness :
  (_run_simctl_command sample_lib [PStr "boot"; PStr "iPhone-15"]
     (world_answering (Spawned (Exits 1 "" "Invalid device")))).1
  = Raises (Exn RuntimeError "simctl command failed: Invalid device")
  /\ (_run_simctl_command sample_lib [PStr "boot"; PStr "iPhone-15"]
        (world_answering (Spawned (Exits 0 " booted " "")))).1
     = Returns "booted".
Proof.
  split.
  - apply (proj1 (proj2
             (executor_outcomes sample_lib [PStr "boot"; PStr "iPhone-15"]
                (world_answering (Spawned (Exits 1 "" "Invalid device")))
                _ eq_refl)) 1%Z "" "Invalid device");
      [reflexivity | discriminate | reflexivity].
  - apply (proj2 (proj2 (proj2
             (executor_outcomes sample_lib [PStr "boot"; PStr "iPhone-15"]
                (world_answering (Spawned (Exits 0 " booted " "")))
                _ eq_refl))) " booted " "");
      [reflexivity | reflexivity].
Defined.

(** C3, as first stated, fails: a process leaving with status 1 and one
    leaving with status 2, both with "Invalid device" on standard error,
    produce the very same failure, whose only content is its text; the
    exit status is not carried. *)
Lemma exit_status_not_carried :
  (_run_simctl_command sample_lib [PStr "boot"; PStr "iPhone-15"]
     (world_answering (Spawned (Exits 1 "" "Invalid device")))).1
  = Raises (Exn RuntimeError "simctl command failed: Invalid device")
  /\ (_run_simctl_command sample_lib [PStr "boot"; PStr "iPhone-15"]
        (world_answering (Spawned (Exits 2 "" "Invalid device")))).1
     = (_run_simctl_command sample_lib [PStr "boot"; PStr "iPhone-15"]
          (world_answering (Spawned (Exits 1 "" "Invalid device")))).1.
Proof. split; reflexivity. Qed.

(** ** Symbolic execution of a handler

    One step looks at the computation in front: a key lookup splits on the
    key (or uses what is known about it), a launch splits on its outcome,
    and a block that cannot fail is replaced by its value. *)
Ltac exec1 :=
  cbv beta iota zeta;
  match goal with
  | |- context [((?m ≫= ?f) ≫= ?k) ?w] => rewrite (bind_assoc m f k w)
  | |- context [(getitem ?args ?k ≫= ?f) ?w] =>
      rewrite (bind_getitem args k f w);
      first [ match goal with H : args !! k = _ |- _ => rewrite H end
            | destruct (args !! k) eqn:? ]
  | |- context [(_run_simctl_command ?lib ?a ≫= ?f) ?w] =>
      rewrite (bind_run lib a f w);
      destruct (_run_simctl_command lib a w).1
  | |- context [(mret ?a ≫= ?f) ?w] => rewrite (bind_ret a f w)
  | |- context [(raise ?e ≫= ?f) ?w] => rewrite (bind_raise e f w)
  | |- context [(?m ≫= ?f) ?w] =>
      let H := fresh "Hne" in
      let c := fresh "c" in
      assert (H : noeffect m) by (auto 20 with noeff);
      destruct (bind_noeffect m f w H) as [c ->]; clear H
  end.

(** ** The dispatcher *)

Section Dispatcher.

Context (lib : PyLib).

Lemma handle_world (nm : string) (args : gmap string pyval) (w : world) :
  (handle_call_tool lib nm args w).2 = (dispatch lib nm args w).2.
Proof.
  unfold handle_call_tool, try_except, mbind, M_bind, mret, M_ret.
  destruct (dispatch lib nm args w) as [[s|e|] w']; reflexivity.
Qed.

Lemma handle_returns (nm : string) (args : gmap string pyval) (w : world)
    (s : string) :
  (dispatch lib nm args w).1 = Returns s ->
  (handle_call_tool lib nm args w).1 = Returns [text_content s].
Proof.
  unfold handle_call_tool, try_except, mbind, M_bind, mret, M_ret.
  destruct (dispatch lib nm args w) as [[s'|e|] w']; simpl;
    intros H; inversion H; reflexivity.
Qed.

Lemma handle_raises (nm : string) (args : gmap string pyval) (w : world)
    (e : exn) :
  (dispatch lib nm args w).1 = Raises e ->
  (handle_call_tool lib nm args w).1
  = Returns [text_content ("Error: " +:+ exn_str e)].
Proof.
  unfold handle_call_tool, try_except, mbind, M_bind, mret, M_ret.
  destruct (dispatch lib nm args w) as [[s'|e'|] w']; simpl;
    intros H; inversion H; reflexivity.
Qed.

Lemma handle_blocks (nm : string) (args : gmap string pyval) (w : world) :
  (dispatch lib nm args w).1 = Blocks ->
  (handle_call_tool lib nm args w).1 = Blocks.
Proof.
  unfold handle_call_tool, try_except, mbind, M_bind, mret, M_ret.
  destruct (dispatch lib nm args w) as [[s'|e'|] w']; simpl;
    intros H; inversion H; reflexivity.
Qed.

(** *** Booting a device *)

Lemma boot_world (args : gmap string pyval) (w : world) (d : pyval) :
  args !! "device" = Some d ->
  (_boot_device lib args w).2
  = answered
      (PStr "xcrun" :: PStr "simctl" :: PStr "boot" :: d
       :: (if truthy (get args "arch")
           then [PStr ("--arch=" +:+ py_str lib (get args "arch"))]
           else []))
      w.
Proof.
  intros Hd. unfold _boot_device. exec1.
  destruct (args !! "arch") as [v|] eqn:Ha.
  - rewrite !(get_Some _ _ _ Ha).
    destruct (truthy v); repeat exec1; reflexivity.
  - rewrite !(get_None _ _ Ha). cbn [truthy]. repeat exec1; reflexivity.
Qed.

(** C5: booting "iPhone-15" launches [xcrun simctl boot iPhone-15], and
    booting it with arch "arm64" launches
    [xcrun simctl boot iPhone-15 --arch=arm64]; the fixed tool path
    [xcrun simctl] comes first. *)
Theorem boot_device_command_lines (w : world) :
  spawned (trace (handle_call_tool lib "simctl_boot_device"
                    {[ "device" := PStr "iPhone-15" ]} w).2)
  = spawned (trace w)
    ++ [[PStr "xcrun"; PStr "simctl"; PStr "boot"; PStr "iPhone-15"]]
  /\ spawned (trace (handle_call_tool lib "simctl_boot_device"
                       (<[ "arch" := PStr "arm64" ]>
                          {[ "device" := PStr "iPhone-15" ]}) w).2)
     = spawned (trace w)
       ++ [[PStr "xcrun"; PStr "simctl"; PStr "boot"; PStr "iPhone-15";
            PStr "--arch=arm64"]].
Proof.
  split; rewrite handle_world;
    change (dispatch lib "simctl_boot_device") with (_boot_device lib);
    rewrite (boot_world _ _ (PStr "iPhone-15")) by reflexivity;
    rewrite spawned_answered; reflexivity.
Qed.

(** *** Recording video *)

(** As long as the recorder does not exit, the handler does not return. *)
Lemma record_video_blocks (args : gmap string pyval) (w : world)
    (d p : pyval) (out err : string) :
  args !! "device" = Some d ->
  args !! "output_path" = Some p ->
  (forall cmd, launch w cmd = Spawned (RunsOn out err)) ->
  (handle_call_tool lib "simctl_record_video" args w).1 = Blocks.
Proof.
  intros Hd Hp Hl. apply handle_blocks.
  change (dispatch lib "simctl_record_video") with (_record_video lib).
  unfold _record_video.
  exec1. exec1. exec1. exec1.
  rewrite bind_run. erewrite run_blocks by apply Hl. reflexivity.
Qed.

End Dispatcher.

(** C1: the recorder has announced "Recording started" and keeps running.
    The call to [simctl_record_video] launches it and then waits in
    [communicate()] for the process to exit: it gives the caller nothing
    back, although the handler's own note says that it does not wait for
    completion. *)
Theorem record_video_waits_for_exit :
  let w := world_answering
             (Spawned (RunsOn "" ("Recording started" +:+ String "010" ""))) in
  let r := handle_call_tool sample_lib "simctl_record_video"
             (<[ "output_path" := PStr "/tmp/out.mov" ]>
                {[ "device" := PStr "booted" ]}) w in
  r.1 = Blocks
  /\ trace r.2
     = [EvSpawn [PStr "xcrun"; PStr "simctl"; PStr "io"; PStr "booted";
                 PStr "recordVideo"; PStr "/tmp/out.mov"]].
Proof. split; reflexivity. Qed.

(** ** Setting the location *)

Lemma zero_is_falsy (v : pyval) : is_zero_number v = true -> truthy v = false.
Proof.
  destruct v; simpl; try discriminate; intros ->; reflexivity.
Qed.

Section Location.

Context (lib : PyLib).

(** With action "set", a coordinate that is absent stops the handler
    before anything is launched. *)
Lemma set_location_pair_missing (args : gmap string pyval) (w : world)
    (d : pyval) :
  args !! "device" = Some d ->
  args !! "action" = Some (PStr "set") ->
  args !! "latitude" = None \/ args !! "longitude" = None ->
  _set_location lib args w = (Raises coordinates_required, w).
Proof.
  intros Hd Ha Hc. unfold _set_location.
  do 3 exec1. cbn [py_eq_str String.eqb Ascii.eqb Bool.eqb].
  destruct Hc as [Hc|Hc]; rewrite (get_None _ _ Hc); cbn [truthy negb orb];
    rewrite ?orb_true_r; reflexivity.
Qed.

(** With action "set" and two coordinates that count as true, the pair
    becomes the single token "latitude,longitude" after the action. *)
Lemma set_location_pair_token (args : gmap string pyval) (w : world)
    (d lat lon : pyval) :
  args !! "device" = Some d ->
  args !! "action" = Some (PStr "set") ->
  args !! "latitude" = Some lat -> truthy lat = true ->
  args !! "longitude" = Some lon -> truthy lon = true ->
  (_set_location lib args w).2
  = answered [PStr "xcrun"; PStr "simctl"; PStr "location"; d; PStr "set";
              PStr (py_str lib lat +:+ "," +:+ py_str lib lon)] w.
Proof.
  intros Hd Ha Hlat Tlat Hlon Tlon. unfold _set_location.
  do 3 exec1. cbn [py_eq_str String.eqb Ascii.eqb Bool.eqb].
  rewrite (get_Some _ _ _ Hlat), (get_Some _ _ _ Hlon), Tlat, Tlon.
  cbn [negb orb]. repeat exec1; try reflexivity.
  all: destruct (negb _); repeat exec1; reflexivity.
Qed.

Lemma set_location_zero_like_absent (args : gmap string pyval) (w : world)
    (k : string) (z : pyval) :
  k = "latitude" \/ k = "longitude" ->
  is_zero_number z = true ->
  _set_location lib (<[k := z]> args) w = _set_location lib (delete k args) w.
Proof.
  intros Hk Hz. apply zero_is_falsy in Hz.
  unfold _set_location, getitem, get.
  destruct Hk as [-> | ->];
    rewrite ?lookup_insert_eq, ?lookup_delete_eq;
    rewrite !lookup_insert_ne by discriminate;
    rewrite !lookup_delete_ne by discriminate;
    cbn [default from_option id]; rewrite Hz; cbn [truthy negb orb];
    rewrite ?orb_true_r; reflexivity.
Qed.

(** C10: in [simctl_set_location] a coordinate equal to zero cannot be told
    from a coordinate that was left out: the two requests get the same
    response and leave the same world.  In particular, with action "set" a
    zero latitude or longitude is answered with the missing-coordinates
    error, whatever the other coordinate is, and nothing is launched. *)
Theorem zero_coordinate_same_as_absent (args : gmap string pyval)
    (w : world) (k : string) (z : pyval) :
  k = "latitude" \/ k = "longitude" ->
  is_zero_number z = true ->
  handle_call_tool lib "simctl_set_location" (<[k := z]> args) w
  = handle_call_tool lib "simctl_set_location" (delete k args) w
  /\ (is_Some (args !! "device") ->
      args !! "action" = Some (PStr "set") ->
      handle_call_tool lib "simctl_set_location" (<[k := z]> args) w
      = (Returns
           [text_content
              "Error: Latitude and longitude required for 'set' action"],
         w)).
Proof.
  intros Hk Hz.
  assert (Heq : dispatch lib "simctl_set_location" (<[k := z]> args) w
                = dispatch lib "simctl_set_location" (delete k args) w).
  { change (dispatch lib "simctl_set_location") with (_set_location lib).
    apply set_location_zero_like_absent; assumption. }
  split.
  - unfold handle_call_tool, try_except, mbind, M_bind.
    rewrite Heq. reflexivity.
  - intros [d Hd] Ha.
    unfold handle_call_tool, try_except, mbind, M_bind. rewrite Heq.
    change (dispatch lib "simctl_set_location") with (_set_location lib).
    rewrite (set_location_pair_missing _ _ d).
    + reflexivity.
    + destruct Hk as [-> | ->]; rewrite lookup_delete_ne by discriminate;
        assumption.
    + destruct Hk as [-> | ->]; rewrite lookup_delete_ne by discriminate;
        assumption.
    + destruct Hk as [-> | ->]; [left | right]; apply lookup_delete_eq.
Qed.

End Location.

Example zero_numbers :
  is_zero_number (PInt 0) = true
  /\ is_zero_number (PFloat PrimFloat.zero) = true
  /\ is_zero_number (PFloat PrimFloat.neg_zero) = true
  /\ is_zero_number (PFloat PrimFloat.one) = false.
Proof. repeat split; reflexivity. Qed.

Lemma zero_coordinate_same_as_absent_witness :
  let args : gmap string pyval :=
    <[ "longitude" := PInt 10 ]>
      (<[ "action" := PStr "set" ]> {[ "device" := PStr "booted" ]}) in
  let w := world_answering (Spawned (Exits 0 "" "")) in
  handle_call_tool sample_lib "simctl_set_location"
    (<[ "latitude" := PInt 0 ]> args) w
  = handle_call_tool sample_lib "simctl_set_location"
      (delete "latitude" args) w
  /\ handle_call_tool sample_lib "simctl_set_location"
       (<[ "latitude" := PInt 0 ]> args) w
     = (Returns
          [text_content
             "Error: Latitude and longitude required for 'set' action"],
        w).
Proof.
  intros args w.
  destruct (zero_coordinate_same_as_absent sample_lib args w "latitude"
              (PInt 0) (or_introl eq_refl) eq_refl) as [H1 H2].
  split; [exact H1|].
  apply H2; [eexists; reflexivity | reflexivity].
Defined.

(** C8: both coordinates are supplied, the latitude being 0 (a point on
    the equator).  The handler answers with the missing-coordinates error
    and launches nothing, where the claim has the pair mapped into the
    token "0,10". *)
Theorem set_location_rejects_supplied_zero :
  let w := world_answering (Spawned (Exits 0 "" "")) in
  let r := handle_call_tool sample_lib "simctl_set_location"
             (<[ "longitude" := PInt 10 ]>
                (<[ "latitude" := PInt 0 ]>
                   (<[ "action" := PStr "set" ]>
                      {[ "device" := PStr "booted" ]}))) w in
  r.1 = Returns
          [text_content
             "Error: Latitude and longitude required for 'set' action"]
  /\ spawned (trace r.2) = [].
Proof. split; reflexivity. Qed.

(** The same request with latitude 1 is mapped as the claim says. *)
Example set_location_one_ten :
  let w := world_answering (Spawned (Exits 0 "" "")) in
  let r := handle_call_tool sample_lib "simctl_set_location"
             (<[ "longitude" := PInt 10 ]>
                (<[ "latitude" := PInt 1 ]>
                   (<[ "action" := PStr "set" ]>
                      {[ "device" := PStr "booted" ]}))) w in
  r.1 = Returns [text_content "Location set completed"]
  /\ spawned (trace r.2)
     = [[PStr "xcrun"; PStr "simctl"; PStr "location"; PStr "booted";
         PStr "set"; PStr "1,10"]].
Proof. split; reflexivity. Qed.

(** ** The payload file of a push notification *)

Section Push.

Context (lib : PyLib).

(** When the payload is there and the process exits, the file is created,
    written and unlinked again, whatever the outcome in between. *)
Lemma push_file_removed (args : gmap string pyval) (w : world)
    (payload : pyval) :
  args !! "payload" = Some payload ->
  (forall cmd out err, launch w cmd <> Spawned (RunsOn out err)) ->
  file_cycle (payload_path w) (json_dumps lib None payload) w
    (_push_notification lib args w).
Proof.
  intros Hp Hl. unfold _push_notification, try_finally.
  rewrite bind_assoc.
  unfold mbind at 1. unfold M_bind at 1. unfold NamedTemporaryFile at 1.
  fold (payload_path w).
  rewrite bind_assoc. exec1. rewrite bind_assoc.
  unfold mbind at 1. unfold M_bind at 1. unfold file_write at 1.
  rewrite bind_ret. cbv beta.
  set (w2 := log (EvWrite _ _) _).
  assert (Hf2 : files w2 !! payload_path w
                = Some ("" +:+ json_dumps lib None payload)).
  { unfold w2. cbn [files log set_files]. rewrite !lookup_insert_eq.
    reflexivity. }
  assert (Ht2 : trace w2
                = trace w ++ [EvCreate (payload_path w);
                              EvWrite (payload_path w)
                                (json_dumps lib None payload)]).
  { unfold w2. cbn [trace files log set_files].
    rewrite <- app_assoc. reflexivity. }
  assert (Hl2 : launch w2 = launch w) by reflexivity.
  clearbody w2.
  exec1.
  - exec1. rewrite bind_run.
    destruct (_run_simctl_command lib _ w2) as [o w3] eqn:Erun.
    assert (Ho : o <> Blocks).
    { intros ->. revert Erun.
      unfold _run_simctl_command, try_except, create_subprocess_exec,
        mbind, M_bind, communicate, decode, raise, mret, M_ret.
      simpl. rewrite Hl2.
      destruct (launch w _) as [e|[rc out err|out err]] eqn:El; simpl.
      - destruct (is_FileNotFoundError e); discriminate.
      - repeat case_match; discriminate.
      - exfalso. eapply Hl. exact El. }
    cbn [fst].
    destruct o as [s|e|]; [| |contradiction];
      cbv beta iota zeta; unfold mret, M_ret, os_unlink, answered;
      cbn [files log set_files]; rewrite Hf2; unfold file_cycle;
      cbn [fst snd files trace log set_files];
      (split; [apply lookup_delete_eq|]);
      eexists [EvSpawn _]; rewrite Ht2, <- !app_assoc;
      (split; [reflexivity | right; eexists; reflexivity]).
  - cbv beta iota zeta. unfold os_unlink. rewrite Hf2.
    unfold file_cycle. cbn [fst snd files trace log set_files].
    split; [apply lookup_delete_eq|].
    exists []. rewrite Ht2, <- !app_assoc.
    split; [reflexivity | left; reflexivity].
Qed.

End Push.

(** C6: the request names a device but carries no payload.  The file is
    created first; reading the payload then fails inside the [with] block,
    before the [try] whose [finally] unlinks the file is entered.  The
    call ends with the error text, nothing was launched, and the file is
    still there. *)
Theorem push_without_payload_leaves_file :
  let w := world_answering (Spawned (Exits 0 "" "")) in
  let r := handle_call_tool sample_lib "simctl_push_notification"
             {[ "device" := PStr "booted" ]} w in
  r.1 = Returns [text_content "Error: 'payload'"]
  /\ trace r.2 = [EvCreate "/tmp/tmpk2x9w4qa.json"]
  /\ files r.2 !! "/tmp/tmpk2x9w4qa.json" = Some "".
Proof. repeat split; reflexivity. Qed.

(** ** Launching an app *)

Section Launch.

Context (lib : PyLib).

(** C9: in the command line of [simctl_launch_app], a boolean
    [wait_for_debugger] stands for the presence ([true]) or absence
    ([false], or the key left out) of the one token "--wait-for-debugger",
    never for a token spelling the boolean; and [console_mode] is mapped by
    the fixed table: "console" gives "--console", "console-pty" gives
    "--console-pty", "none" or no [console_mode] at all gives no flag.  The
    flags come after "launch" and before the device and the bundle. *)
Theorem launch_app_flags (args : gmap string pyval) (w : world)
    (d b : pyval) (wfd : option bool) (cm : option string)
    (flags : list string) (extra : option (list pyval)) :
  args !! "device" = Some d ->
  args !! "bundle_id" = Some b ->
  args !! "args" = PList <$> extra ->
  args !! "wait_for_debugger" = PBool <$> wfd ->
  args !! "console_mode" = PStr <$> cm ->
  (cm = None /\ flags = [])
  \/ (exists m, cm = Some m /\ (m, flags) ∈ console_mode_table) ->
  spawned (trace (handle_call_tool lib "simctl_launch_app" args w).2)
  = spawned (trace w)
    ++ [[PStr "xcrun"; PStr "simctl"; PStr "launch"]
        ++ (if default false wfd then [PStr "--wait-for-debugger"] else [])
        ++ (PStr <$> flags)
        ++ [d; b] ++ default [] extra].
Proof.
  intros Hd Hb He Hw Hc Hcm.
  rewrite handle_world.
  change (dispatch lib "simctl_launch_app") with (_launch_app lib).
  assert (Hget_w : truthy (get args "wait_for_debugger") = default false wfd).
  { unfold get. rewrite Hw. destruct wfd; reflexivity. }
  assert (Hflags :
            (if py_eq_str (get_or args "console_mode" (PStr "none")) "console"
             then [PStr "--console"]
             else if py_eq_str (get_or args "console_mode" (PStr "none"))
                       "console-pty"
                  then [PStr "--console-pty"] else [])
            = PStr <$> flags).
  { unfold get_or. rewrite Hc.
    destruct Hcm as [[-> ->] | [m [-> Hin]]]; [reflexivity|].
    unfold console_mode_table in Hin.
    repeat (apply elem_of_cons in Hin; destruct Hin as [Hin|Hin];
            [inversion Hin; subst; reflexivity|]).
    inversion Hin. }
  unfold _launch_app. cbv zeta. rewrite Hget_w.
  destruct (py_eq_str (get_or args "console_mode" (PStr "none")) "console");
    [|destruct (py_eq_str (get_or args "console_mode" (PStr "none"))
                  "console-pty")];
    rewrite <- Hflags; clear Hflags;
    destruct (default false wfd);
    do 2 exec1;
    (destruct extra as [[|x l]|]; simpl in He;
     [ rewrite (get_Some _ _ _ He) | rewrite (get_Some _ _ _ He)
     | rewrite (get_None _ _ He) ]);
    cbn [truthy]; repeat exec1;
    unfold py_iter; repeat exec1; unfold mret, M_ret; cbn [snd];
    rewrite spawned_answered; simpl; rewrite ?app_nil_r; reflexivity.
Qed.

End Launch.

Lemma launch_app_flags_witness :
  let args : gmap string pyval :=
    <[ "console_mode" := PStr "console-pty" ]>
      (<[ "wait_for_debugger" := PBool true ]>
         (<[ "bundle_id" := PStr "com.example.app" ]>
            {[ "device" := PStr "booted" ]})) in
  let w := world_answering (Spawned (Exits 0 "" "")) in
  spawned (trace (handle_call_tool sample_lib "simctl_launch_app" args w).2)
  = [[PStr "xcrun"; PStr "simctl"; PStr "launch";
      PStr "--wait-for-debugger"; PStr "--console-pty";
      PStr "booted"; PStr "com.example.app"]].
Proof.
  intros args w.
  apply (launch_app_flags sample_lib args w (PStr "booted")
           (PStr "com.example.app") (Some true) (Some "console-pty")
           ["--console-pty"] None);
    try reflexivity.
  right. exists "console-pty". split; [reflexivity|].
  unfold console_mode_table. do 2 apply list_elem_of_further.
  apply list_elem_of_here.
Defined.

(** A [wait_for_debugger] of [false] and the default console mode leave the
    command line without any flag. *)
Example launch_app_plain :
  let args : gmap string pyval :=
    <[ "console_mode" := PStr "none" ]>
      (<[ "wait_for_debugger" := PBool false ]>
         (<[ "bundle_id" := PStr "com.example.app" ]>
            {[ "device" := PStr "booted" ]})) in
  let w := world_answering (Spawned (Exits 0 "" "")) in
  spawned (trace (handle_call_tool sample_lib "simctl_launch_app" args w).2)
  = [[PStr "xcrun"; PStr "simctl"; PStr "launch";
      PStr "booted"; PStr "com.example.app"]].
Proof. reflexivity. Qed.

(** ** Computations that leave the world alone *)

Lemma stateless_ret {A} (a : A) : stateless (mret a).
Proof. exists (Returns a). reflexivity. Qed.

Lemma stateless_raise {A} (e : exn) : stateless (@raise A e).
Proof. exists (Raises e). reflexivity. Qed.

Lemma stateless_bind {A B} (m : M A) (k : A -> M B) :
  stateless m -> (forall a, stateless (k a)) -> stateless (m ≫= k).
Proof.
  intros [o Ho] Hk. destruct o as [a|e|].
  - destruct (Hk a) as [o' Ho']. exists o'. intros w.
    unfold mbind, M_bind. rewrite Ho. apply Ho'.
  - exists (Raises e). intros w. unfold mbind, M_bind. rewrite Ho.
    reflexivity.
  - exists Blocks. intros w. unfold mbind, M_bind. rewrite Ho. reflexivity.
Qed.

Lemma stateless_if {A} (c : bool) (m1 m2 : M A) :
  stateless m1 -> stateless m2 -> stateless (if c then m1 else m2).
Proof. destruct c; auto. Qed.

Lemma stateless_getitem (args : gmap string pyval) (k : string) :
  stateless (getitem args k).
Proof.
  unfold getitem. destruct (args !! k);
    [apply stateless_ret | apply stateless_raise].
Qed.

Lemma stateless_lift_result {A} (r : exn + A) : stateless (lift_result r).
Proof. destruct r; [apply stateless_raise | apply stateless_ret]. Qed.

Lemma stateless_try_except {A} (m : M A) (c : exn -> bool)
    (h : exn -> M A) :
  stateless m -> (forall e, stateless (h e)) -> stateless (try_except m c h).
Proof.
  intros [o Ho] Hh. destruct o as [a|e|].
  - exists (Returns a). intros w. unfold try_except. rewrite Ho. reflexivity.
  - destruct (c e) eqn:Hc.
    + destruct (Hh e) as [o' Ho']. exists o'. intros w.
      unfold try_except. rewrite Ho, Hc. apply Ho'.
    + exists (Raises e). intros w. unfold try_except. rewrite Ho, Hc.
      reflexivity.
  - exists Blocks. intros w. unfold try_except. rewrite Ho. reflexivity.
Qed.

Lemma stateless_py_iter (v : pyval) : stateless (py_iter v).
Proof.
  destruct v; simpl; solve [apply stateless_ret | apply stateless_raise].
Qed.

Lemma stateless_str_items (l : list pyval) (i : nat) :
  stateless (str_items i l).
Proof.
  revert i. induction l as [|v l IH]; intros i; simpl.
  - apply stateless_ret.
  - destruct v; try apply stateless_raise.
    apply stateless_bind; [apply IH|]. intros ss. apply stateless_ret.
Qed.

Lemma stateless_py_join (sep : string) (v : pyval) :
  stateless (py_join sep v).
Proof.
  assert (H : stateless (l ← py_iter v; ss ← str_items 0 l;
                         mret (String.concat sep ss))).
  { apply stateless_bind; [apply stateless_py_iter|]. intros l.
    apply stateless_bind; [apply stateless_str_items|]. intros ss.
    apply stateless_ret. }
  destruct v; simpl; solve [apply stateless_raise | exact H].
Qed.

Create HintDb stateless_db.
#[export] Hint Resolve stateless_ret stateless_raise stateless_getitem
  stateless_lift_result stateless_py_iter stateless_py_join
  : stateless_db.
#[export] Hint Extern 2 (stateless (mbind _ _)) =>
  apply stateless_bind; [|intros ?] : stateless_db.
#[export] Hint Extern 3 (stateless (if _ then _ else _)) =>
  apply stateless_if : stateless_db.
#[export] Hint Extern 3 (stateless (try_except _ _ _)) =>
  apply stateless_try_except; [|intros ?] : stateless_db.

(** ** Computations that can only fail locally *)

Lemma local_ret {A} (a : A) : local (mret a).
Proof. exists (Returns a). split; [reflexivity | exact I]. Qed.

Lemma local_raise {A} (e : exn) : local_error e -> local (@raise A e).
Proof. intros He. exists (Raises e). split; [reflexivity | exact He]. Qed.

Lemma local_bind {A B} (m : M A) (k : A -> M B) :
  local m -> (forall a, local (k a)) -> local (m ≫= k).
Proof.
  intros [o [Ho Hq]] Hk. destruct o as [a|e|]; [| |contradiction].
  - destruct (Hk a) as [o' [Ho' Hq']]. exists o'. split; [|exact Hq'].
    intros w. unfold mbind, M_bind. rewrite Ho. apply Ho'.
  - exists (Raises e). split; [|exact Hq].
    intros w. unfold mbind, M_bind. rewrite Ho. reflexivity.
Qed.

Lemma local_if {A} (c : bool) (m1 m2 : M A) :
  local m1 -> local m2 -> local (if c then m1 else m2).
Proof. destruct c; auto. Qed.

Lemma local_getitem (args : gmap string pyval) (k : string) :
  local (getitem args k).
Proof.
  unfold getitem. destruct (args !! k); [apply local_ret|].
  apply local_raise. left. reflexivity.
Qed.

Lemma local_list_concat (l : list pyval) (v : pyval) :
  local (list_concat l v).
Proof.
  destruct v; simpl; try apply local_ret;
    apply local_raise; right; left; reflexivity.
Qed.

Lemma local_py_iter (v : pyval) : local (py_iter v).
Proof.
  destruct v; simpl; try apply local_ret;
    apply local_raise; right; left; reflexivity.
Qed.

Lemma local_coordinates_required {A} : local (@raise A coordinates_required).
Proof. apply local_raise. right; right; left. reflexivity. Qed.

Lemma local_scenario_required {A} : local (@raise A scenario_required).
Proof. apply local_raise. right; right; right. reflexivity. Qed.

Create HintDb local_db.
#[export] Hint Resolve local_ret local_getitem local_list_concat
  local_py_iter local_coordinates_required local_scenario_required
  : local_db.
#[export] Hint Extern 2 (local (mbind _ _)) =>
  apply local_bind; [|intros ?] : local_db.
#[export] Hint Extern 3 (local (if _ then _ else _)) =>
  apply local_if : local_db.
#[export] Hint Extern 1 (local (raise _)) =>
  first [ apply local_coordinates_required
        | apply local_scenario_required ] : local_db.

(** ** The shape of every handler *)

Section Shapes.

Context (lib : PyLib).

Lemma shape_bind_local {A B} (m : M A) (k : A -> M B) :
  local m -> (forall a, shape (k a)) -> shape (m ≫= k).
Proof.
  intros [o [Ho Hq]] Hk w. unfold mbind, M_bind. rewrite Ho.
  destruct o as [a|e|]; [apply Hk | | contradiction].
  left. exists e. split; [reflexivity|]. split; [exact Hq | reflexivity].
Qed.

Lemma shape_run_then {B} (a : list pyval) (k : string -> M B) :
  (forall s, stateless (k s)) -> shape (_run_simctl_command lib a ≫= k).
Proof.
  intros Hk w. right. rewrite bind_run.
  exists (PStr "xcrun" :: PStr "simctl" :: a).
  destruct (_run_simctl_command lib a w).1 as [s|e|];
    [destruct (Hk s) as [o Ho]; rewrite Ho | |];
    apply spawned_answered.
Qed.

Lemma shape_run (a : list pyval) : shape (_run_simctl_command lib a).
Proof.
  intros w. right. exists (PStr "xcrun" :: PStr "simctl" :: a).
  rewrite run_world. apply spawned_answered.
Qed.

Ltac shape_auto :=
  cbv zeta;
  repeat
    match goal with
    | |- shape (mbind _ (_run_simctl_command _ _)) =>
        apply shape_run_then; intros ?; auto 30 with stateless_db
    | |- shape (_run_simctl_command _ _) => apply shape_run
    | |- shape (mbind _ _) =>
        apply shape_bind_local; [auto 30 with local_db | intros ?]
    end.

Lemma list_devices_shape (args : gmap string pyval) :
  shape (_list_devices lib args).
Proof. unfold _list_devices. shape_auto. Qed.

Lemma boot_device_shape (args : gmap string pyval) :
  shape (_boot_device lib args).
Proof. unfold _boot_device. shape_auto. Qed.

Lemma shutdown_device_shape (args : gmap string pyval) :
  shape (_shutdown_device lib args).
Proof. unfold _shutdown_device. shape_auto. Qed.

Lemma create_device_shape (args : gmap string pyval) :
  shape (_create_device lib args).
Proof. unfold _create_device. shape_auto. Qed.

Lemma delete_device_shape (args : gmap string pyval) :
  shape (_delete_device lib args).
Proof. unfold _delete_device. shape_auto. Qed.

Lemma install_app_shape (args : gmap string pyval) :
  shape (_install_app lib args).
Proof. unfold _install_app. shape_auto. Qed.

Lemma launch_app_shape (args : gmap string pyval) :
  shape (_launch_app lib args).
Proof. unfold _launch_app. shape_auto. Qed.

Lemma terminate_app_shape (args : gmap string pyval) :
  shape (_terminate_app lib args).
Proof. unfold _terminate_app. shape_auto. Qed.

Lemma screenshot_shape (args : gmap string pyval) :
  shape (_screenshot lib args).
Proof. unfold _screenshot. shape_auto. Qed.

Lemma record_video_shape (args : gmap string pyval) :
  shape (_record_video lib args).
Proof. unfold _record_video. shape_auto. Qed.

Lemma privacy_control_shape (args : gmap string pyval) :
  shape (_privacy_control lib args).
Proof. unfold _privacy_control. shape_auto. Qed.

Lemma set_location_shape (args : gmap string pyval) :
  shape (_set_location lib args).
Proof. unfold _set_location. shape_auto. Qed.

Lemma status_bar_override_shape (args : gmap string pyval) :
  shape (_status_bar_override lib args).
Proof. unfold _status_bar_override. shape_auto. Qed.

Lemma ui_appearance_shape (args : gmap string pyval) :
  shape (_ui_appearance lib args).
Proof. unfold _ui_appearance. shape_auto. Qed.

End Shapes.

Section DispatchShape.

Context (lib : PyLib).

Lemma push_notification_shape (args : gmap string pyval) :
  shape (_push_notification lib args).
Proof.
  intros w. unfold _push_notification, try_finally.
  rewrite bind_assoc.
  unfold mbind at 1. unfold M_bind at 1. unfold NamedTemporaryFile at 1.
  fold (payload_path w).
  rewrite bind_assoc. exec1.
  - rewrite bind_assoc.
    unfold mbind at 1. unfold M_bind at 1. unfold file_write at 1.
    rewrite bind_ret. cbv beta.
    set (w2 := log (EvWrite _ _) _).
    assert (Hf2 : is_Some (files w2 !! payload_path w)).
    { unfold w2. cbn [files log set_files]. rewrite !lookup_insert_eq.
      eexists; reflexivity. }
    assert (Hs2 : spawned (trace w2) = spawned (trace w)).
    { unfold w2. cbn [trace files log set_files].
      rewrite !spawned_app. simpl. rewrite !app_nil_r. reflexivity. }
    destruct Hf2 as [content Hf2]. clearbody w2.
    exec1.
    + exec1. rewrite bind_run.
      right. eexists.
      match goal with
      | |- context [(_run_simctl_command lib ?a w2).1] =>
          destruct (_run_simctl_command lib a w2).1 as [s|e|]
      end;
        cbv beta iota zeta; unfold mret, M_ret, os_unlink, answered;
        cbn [files log set_files]; rewrite ?Hf2;
        cbn [fst snd files trace log set_files];
        rewrite !spawned_app, Hs2; simpl; rewrite ?app_nil_r; reflexivity.
    + cbv beta iota zeta. unfold os_unlink. rewrite Hf2.
      left. exists (key_error "device").
      cbn [fst snd files trace log set_files].
      split; [reflexivity|]. split; [left; reflexivity|].
      rewrite spawned_app, Hs2. simpl. apply app_nil_r.
  - left. exists (key_error "payload").
    cbn [fst snd files trace log set_files].
    split; [reflexivity|]. split; [left; reflexivity|].
    rewrite spawned_app. simpl. apply app_nil_r.
Qed.

(** Every request is an unknown tool, a local failure before any launch,
    or exactly one launch. *)
Lemma dispatch_cases (nm : string) (args : gmap string pyval) (w : world) :
  dispatch lib nm args w
  = (Raises (Exn ValueError ("Unknown tool: " +:+ nm)), w)
  \/ settled w (dispatch lib nm args w).
Proof.
  unfold dispatch.
  repeat match goal with
         | |- context [if String.eqb nm ?s then _ else _] =>
             destruct (String.eqb nm s)
         end;
    first
      [ left; reflexivity
      | right;
        first [ apply list_devices_shape | apply boot_device_shape
              | apply shutdown_device_shape | apply create_device_shape
              | apply delete_device_shape | apply install_app_shape
              | apply launch_app_shape | apply terminate_app_shape
              | apply screenshot_shape | apply record_video_shape
              | apply push_notification_shape | apply privacy_control_shape
              | apply set_location_shape | apply status_bar_override_shape
              | apply ui_appearance_shape ] ].
Qed.

End DispatchShape.

(** ** Enumerated parameters *)

Section Enumerations.

Context (lib : PyLib).

(** C2, as amended: no operation compares a value with the enumeration
    declared for it.  The only [ValueError]s raised before anything is
    launched are the unknown-tool error and the two requirements of
    [simctl_set_location] (coordinates for "set", a scenario for "run").
    A value outside the enumeration is passed on and the external tool is
    invoked: a non-empty [arch] [v] of [simctl_boot_device] becomes the
    token "--arch=v", the [action] [v] of [simctl_privacy_control] becomes
    the positional token [v]; and a [console_mode] of [simctl_launch_app]
    other than "console" and "console-pty" is treated as "none". *)
Theorem enumerations_not_checked :
  (forall nm args w msg,
     (dispatch lib nm args w).1 = Raises (Exn ValueError msg) ->
     spawned (trace (dispatch lib nm args w).2) = spawned (trace w) ->
     msg = "Unknown tool: " +:+ nm
     \/ Exn ValueError msg = coordinates_required
     \/ Exn ValueError msg = scenario_required)
  /\ (forall (args : gmap string pyval) w d v,
        args !! "device" = Some d ->
        args !! "arch" = Some (PStr v) ->
        v <> "" ->
        spawned (trace (handle_call_tool lib "simctl_boot_device" args w).2)
        = spawned (trace w)
          ++ [[PStr "xcrun"; PStr "simctl"; PStr "boot"; d;
               PStr ("--arch=" +:+ v)]])
  /\ (forall (args : gmap string pyval) w d v s,
        args !! "device" = Some d ->
        args !! "action" = Some (PStr v) ->
        args !! "service" = Some s ->
        args !! "bundle_id" = None ->
        spawned (trace (handle_call_tool lib "simctl_privacy_control"
                          args w).2)
        = spawned (trace w)
          ++ [[PStr "xcrun"; PStr "simctl"; PStr "privacy"; d; PStr v; s]])
  /\ (forall (args : gmap string pyval) w v,
        v <> "console" -> v <> "console-pty" ->
        handle_call_tool lib "simctl_launch_app"
          (<[ "console_mode" := PStr v ]> args) w
        = handle_call_tool lib "simctl_launch_app"
            (<[ "console_mode" := PStr "none" ]> args) w).
Proof.
  split; [|split; [|split]].
  - intros nm args w msg Hr Hs.
    destruct (dispatch_cases lib nm args w) as [Hu | [Hq | Hl]].
    + rewrite Hu in Hr. simpl in Hr. inversion Hr. left. reflexivity.
    + destruct Hq as [e [He [Hloc _]]]. rewrite Hr in He.
      inversion He; subst e.
      destruct Hloc as [Hk | [Ht | [Hc | Hc]]];
        [discriminate Hk | discriminate Ht | right; left; exact Hc
        | right; right; exact Hc].
    + destruct Hl as [cmd Hcmd]. rewrite Hs in Hcmd.
      symmetry in Hcmd. apply app_one_neq in Hcmd. contradiction.
  - intros args w d v Hd Ha Hv. rewrite handle_world.
    change (dispatch lib "simctl_boot_device") with (_boot_device lib).
    rewrite (boot_world lib _ _ d Hd), spawned_answered.
    rewrite (get_Some _ _ _ Ha). cbn [truthy py_str].
    destruct (String.eqb_spec v "") as [->|_]; [contradiction|].
    reflexivity.
  - intros args w d v s Hd Ha Hs Hb. rewrite handle_world.
    change (dispatch lib "simctl_privacy_control")
      with (_privacy_control lib).
    unfold _privacy_control. do 3 exec1.
    rewrite (get_None _ _ Hb). cbn [truthy].
    repeat exec1; unfold mret, M_ret; cbn [snd];
      rewrite spawned_answered; reflexivity.
  - intros args w v Hv1 Hv2.
    assert (E1 : py_eq_str (PStr v) "console" = false)
      by (apply String.eqb_neq; assumption).
    assert (E2 : py_eq_str (PStr v) "console-pty" = false)
      by (apply String.eqb_neq; assumption).
    unfold handle_call_tool.
    change (dispatch lib "simctl_launch_app") with (_launch_app lib).
    unfold _launch_app, getitem, get, get_or.
    rewrite !lookup_insert_eq.
    rewrite !lookup_insert_ne by discriminate.
    cbn [default from_option id]. rewrite E1, E2. reflexivity.
Qed.

End Enumerations.

Lemma enumerations_not_checked_witness :
  let args : gmap string pyval :=
    <[ "arch" := PStr "riscv" ]> {[ "device" := PStr "iPhone-15" ]} in
  let w := world_answering (Spawned (Exits 0 "" "")) in
  spawned (trace (handle_call_tool sample_lib "simctl_boot_device" args w).2)
  = [[PStr "xcrun"; PStr "simctl"; PStr "boot"; PStr "iPhone-15";
      PStr "--arch=riscv"]].
Proof.
  intros args w.
  apply (proj1 (proj2 (enumerations_not_checked sample_lib))
           args w (PStr "iPhone-15") "riscv");
    [reflexivity | reflexivity | discriminate].
Defined.

(** C2, as first stated, fails: "mips" is not in the enumeration declared
    for [arch], yet the request is answered with success and the tool was
    launched with "--arch=mips". *)
Lemma boot_accepts_undeclared_arch :
  let w := world_answering (Spawned (Exits 0 "" "")) in
  let r := handle_call_tool sample_lib "simctl_boot_device"
             (<[ "arch" := PStr "mips" ]>
                {[ "device" := PStr "iPhone-15" ]}) w in
  declared_enum "simctl_boot_device" "arch" = Some ["arm64"; "x86_64"]
  /\ ("mips" ∉ ["arm64"; "x86_64"])
  /\ r.1 = Returns [text_content "Successfully booted device: iPhone-15"]
  /\ spawned (trace r.2)
     = [[PStr "xcrun"; PStr "simctl"; PStr "boot"; PStr "iPhone-15";
         PStr "--arch=mips"]].
Proof.
  repeat split; try reflexivity.
  rewrite !elem_of_cons, elem_of_nil. intros [H | [H | H]];
    [discriminate H | discriminate H | exact H].
Qed.

(** ** Required parameters *)

(** Closes a goal whose call has just ended with a [KeyError]. *)
Ltac missing_key :=
  match goal with
  | |- missing_parameter _ _ _ (Raises (key_error ?k), _) =>
      exists k; split; [repeat constructor|];
      split; [assumption|]; split; reflexivity
  end.

(** Splits membership in a literal list into its cases. *)
Ltac in_cases H :=
  repeat (apply elem_of_cons in H; destruct H as [->|H]);
  [.. | apply elem_of_nil in H; contradiction].

Ltac missing_auto :=
  repeat (exec1; try missing_key).

Section Required.

Context (lib : PyLib).

Lemma boot_device_missing (args : gmap string pyval) (w : world) (p : string) :
  p ∈ ["device"] -> args !! p = None ->
  missing_parameter ["device"] args w (_boot_device lib args w).
Proof. intros Hin Hp. in_cases Hin; unfold _boot_device; missing_auto. Qed.

Lemma shutdown_device_missing (args : gmap string pyval) (w : world)
    (p : string) :
  p ∈ ["device"] -> args !! p = None ->
  missing_parameter ["device"] args w (_shutdown_device lib args w).
Proof.
  intros Hin Hp. in_cases Hin; unfold _shutdown_device; missing_auto.
Qed.

Lemma create_device_missing (args : gmap string pyval) (w : world)
    (p : string) :
  p ∈ ["name"; "device_type"] -> args !! p = None ->
  missing_parameter ["name"; "device_type"] args w
    (_create_device lib args w).
Proof. intros Hin Hp. in_cases Hin; unfold _create_device; missing_auto. Qed.

Lemma delete_device_missing (args : gmap string pyval) (w : world)
    (p : string) :
  p ∈ ["devices"] -> args !! p = None ->
  missing_parameter ["devices"] args w (_delete_device lib args w).
Proof. intros Hin Hp. in_cases Hin; unfold _delete_device; missing_auto. Qed.

Lemma install_app_missing (args : gmap string pyval) (w : world)
    (p : string) :
  p ∈ ["device"; "app_path"] -> args !! p = None ->
  missing_parameter ["device"; "app_path"] args w (_install_app lib args w).
Proof. intros Hin Hp. in_cases Hin; unfold _install_app; missing_auto. Qed.

Lemma launch_app_missing (args : gmap string pyval) (w : world)
    (p : string) :
  p ∈ ["device"; "bundle_id"] -> args !! p = None ->
  missing_parameter ["device"; "bundle_id"] args w (_launch_app lib args w).
Proof. intros Hin Hp. in_cases Hin; unfold _launch_app; missing_auto. Qed.

Lemma terminate_app_missing (args : gmap string pyval) (w : world)
    (p : string) :
  p ∈ ["device"; "bundle_id"] -> args !! p = None ->
  missing_parameter ["device"; "bundle_id"] args w
    (_terminate_app lib args w).
Proof. intros Hin Hp. in_cases Hin; unfold _terminate_app; missing_auto. Qed.

Lemma screenshot_missing (args : gmap string pyval) (w : world)
    (p : string) :
  p ∈ ["device"; "output_path"] -> args !! p = None ->
  missing_parameter ["device"; "output_path"] args w
    (_screenshot lib args w).
Proof. intros Hin Hp. in_cases Hin; unfold _screenshot; missing_auto. Qed.

Lemma record_video_missing (args : gmap string pyval) (w : world)
    (p : string) :
  p ∈ ["device"; "output_path"] -> args !! p = None ->
  missing_parameter ["device"; "output_path"] args w
    (_record_video lib args w).
Proof. intros Hin Hp. in_cases Hin; unfold _record_video; missing_auto. Qed.

Lemma privacy_control_missing (args : gmap string pyval) (w : world)
    (p : string) :
  p ∈ ["device"; "action"; "service"] -> args !! p = None ->
  missing_parameter ["device"; "action"; "service"] args w
    (_privacy_control lib args w).
Proof.
  intros Hin Hp. in_cases Hin; unfold _privacy_control; missing_auto.
Qed.

Lemma set_location_missing (args : gmap string pyval) (w : world)
    (p : string) :
  p ∈ ["device"; "action"] -> args !! p = None ->
  missing_parameter ["device"; "action"] args w (_set_location lib args w).
Proof. intros Hin Hp. in_cases Hin; unfold _set_location; missing_auto. Qed.

Lemma status_bar_override_missing (args : gmap string pyval) (w : world)
    (p : string) :
  p ∈ ["device"; "action"] -> args !! p = None ->
  missing_parameter ["device"; "action"] args w
    (_status_bar_override lib args w).
Proof.
  intros Hin Hp. in_cases Hin; unfold _status_bar_override; missing_auto.
Qed.

Lemma ui_appearance_missing (args : gmap string pyval) (w : world)
    (p : string) :
  p ∈ ["device"] -> args !! p = None ->
  missing_parameter ["device"] args w (_ui_appearance lib args w).
Proof. intros Hin Hp. in_cases Hin; unfold _ui_appearance; missing_auto. Qed.

End Required.

Section RequiredParameters.

Context (lib : PyLib).

Lemma push_notification_missing (args : gmap string pyval) (w : world)
    (p : string) :
  p ∈ ["device"; "payload"] -> args !! p = None ->
  missing_parameter ["device"; "payload"] args w
    (_push_notification lib args w).
Proof.
  intros Hin Hp.
  assert (Hno : args !! "payload" = None ->
                missing_parameter ["device"; "payload"] args w
                  (_push_notification lib args w)).
  { intros Hpl. unfold _push_notification, try_finally.
    rewrite bind_assoc.
    unfold mbind at 1. unfold M_bind at 1. unfold NamedTemporaryFile at 1.
    rewrite bind_assoc. exec1.
    exists "payload". split; [repeat constructor|]. split; [assumption|].
    cbn [fst snd files trace log set_files].
    split; [reflexivity|]. rewrite spawned_app. simpl. apply app_nil_r. }
  in_cases Hin; [|apply Hno; assumption].
  destruct (args !! "payload") as [payload|] eqn:Hpl;
    [|apply Hno; reflexivity].
  clear Hno. unfold _push_notification, try_finally.
  rewrite bind_assoc.
  unfold mbind at 1. unfold M_bind at 1. unfold NamedTemporaryFile at 1.
  fold (payload_path w).
  rewrite bind_assoc. exec1. rewrite bind_assoc.
  unfold mbind at 1. unfold M_bind at 1. unfold file_write at 1.
  rewrite bind_ret. cbv beta.
  set (w2 := log (EvWrite _ _) _).
  assert (Hf2 : is_Some (files w2 !! payload_path w)).
  { unfold w2. cbn [files log set_files]. rewrite !lookup_insert_eq.
    eexists; reflexivity. }
  assert (Hs2 : spawned (trace w2) = spawned (trace w)).
  { unfold w2. cbn [trace files log set_files].
    rewrite !spawned_app. simpl. rewrite !app_nil_r. reflexivity. }
  destruct Hf2 as [content Hf2]. clearbody w2.
  exec1. cbv beta iota zeta. unfold os_unlink. rewrite Hf2.
  exists "device". split; [repeat constructor|]. split; [assumption|].
  cbn [fst snd files trace log set_files].
  split; [reflexivity|]. rewrite spawned_app, Hs2. simpl. apply app_nil_r.
Qed.

(** What the caller sees of a missing parameter. *)
Lemma handle_missing (req : list string) (nm : string)
    (args : gmap string pyval) (w : world) :
  missing_parameter req args w (dispatch lib nm args w) ->
  exists q, q ∈ req /\ args !! q = None
    /\ (handle_call_tool lib nm args w).1
       = Returns [text_content ("Error: '" +:+ q +:+ "'")]
    /\ spawned (trace (handle_call_tool lib nm args w).2)
       = spawned (trace w).
Proof.
  intros [q [Hq [Hn [Hr Hs]]]]. exists q.
  split; [exact Hq|]. split; [exact Hn|]. split.
  - rewrite (handle_raises lib nm args w _ Hr). reflexivity.
  - rewrite handle_world. exact Hs.
Qed.

(** C7: for every tool of the registry and every parameter it requires, a
    request without that parameter is answered with the error text naming
    a required parameter that is missing -- the omitted one, when it is the
    only one missing -- and nothing is launched. *)
Theorem missing_required_parameter (t : Tool) (p : string)
    (args : gmap string pyval) (w : world) :
  t ∈ handle_list_tools ->
  p ∈ required t ->
  args !! p = None ->
  exists q, q ∈ required t /\ args !! q = None
    /\ (handle_call_tool lib (name t) args w).1
       = Returns [text_content ("Error: '" +:+ q +:+ "'")]
    /\ spawned (trace (handle_call_tool lib (name t) args w).2)
       = spawned (trace w)
    /\ ((forall q', q' ∈ required t -> q' <> p -> is_Some (args !! q')) ->
        q = p).
Proof.
  intros Ht Hp Hn.
  assert (H : exists q, q ∈ required t /\ args !! q = None
                /\ (handle_call_tool lib (name t) args w).1
                   = Returns [text_content ("Error: '" +:+ q +:+ "'")]
                /\ spawned (trace (handle_call_tool lib (name t) args w).2)
                   = spawned (trace w)).
  { unfold handle_list_tools in Ht.
    repeat (apply elem_of_cons in Ht; destruct Ht as [->|Ht]);
      [.. | apply elem_of_nil in Ht; contradiction];
      cbn [name required] in *; apply handle_missing.
    - apply elem_of_nil in Hp. contradiction.
    - apply (boot_device_missing lib args w p); assumption.
    - apply (shutdown_device_missing lib args w p); assumption.
    - apply (create_device_missing lib args w p); assumption.
    - apply (delete_device_missing lib args w p); assumption.
    - apply (install_app_missing lib args w p); assumption.
    - apply (launch_app_missing lib args w p); assumption.
    - apply (terminate_app_missing lib args w p); assumption.
    - apply (screenshot_missing lib args w p); assumption.
    - apply (record_video_missing lib args w p); assumption.
    - apply (push_notification_missing args w p); assumption.
    - apply (privacy_control_missing lib args w p); assumption.
    - apply (set_location_missing lib args w p); assumption.
    - apply (status_bar_override_missing lib args w p); assumption.
    - apply (ui_appearance_missing lib args w p); assumption. }
  destruct H as [q [Hq [Hqn [Hr Hs]]]]. exists q.
  repeat (split; [assumption|]).
  intros Hothers. destruct (String.eqb_spec q p) as [->|Hne]; [reflexivity|].
  destruct (Hothers q Hq Hne) as [v Hv]. rewrite Hv in Hqn. discriminate.
Qed.

End RequiredParameters.

Lemma missing_required_parameter_witness :
  let t := {| name := "simctl_launch_app";
              properties :=
                [ prop "device" "string"; prop "bundle_id" "string";
                  {| prop_name := "wait_for_debugger";
                     prop_type := "boolean"; prop_enum := None;
                     prop_default := Some (PBool false);
                     prop_range := None |};
                  prop_enumerated "console_mode"
                    ["none"; "console"; "console-pty"] (Some (PStr "none"));
                  prop "args" "array" ];
              required := ["device"; "bundle_id"] |} in
  let args : gmap string pyval := {[ "device" := PStr "booted" ]} in
  let w := world_answering (Spawned (Exits 0 "" "")) in
  exists q, q ∈ required t /\ args !! q = None
    /\ (handle_call_tool sample_lib (name t) args w).1
       = Returns [text_content ("Error: '" +:+ q +:+ "'")]
    /\ spawned (trace (handle_call_tool sample_lib (name t) args w).2)
       = spawned (trace w)
    /\ ((forall q', q' ∈ required t -> q' <> "bundle_id" ->
         is_Some (args !! q')) ->
        q = "bundle_id").
Proof.
  intros t args w.
  apply (missing_required_parameter sample_lib t "bundle_id" args w).
  - unfold handle_list_tools. do 6 apply list_elem_of_further.
    apply list_elem_of_here.
  - simpl. apply list_elem_of_further. apply list_elem_of_here.
  - reflexivity.
Defined.

(** The same request, evaluated. *)
Example launch_without_bundle :
  let w := world_answering (Spawned (Exits 0 "" "")) in
  handle_call_tool sample_lib "simctl_launch_app"
    {[ "device" := PStr "booted" ]} w
  = (Returns [text_content "Error: 'bundle_id'"], w).
Proof. reflexivity. Qed.

(** ** Failures at the invocation boundary *)

Section Boundary.

Context (lib : PyLib).

Lemma dispatch_unknown (nm : string) (args : gmap string pyval) (w : world) :
  nm ∉ (name <$> handle_list_tools) ->
  dispatch lib nm args w
  = (Raises (Exn ValueError ("Unknown tool: " +:+ nm)), w).
Proof.
  intros H. unfold handle_list_tools in H.
  cbn [fmap list_fmap name] in H.
  rewrite !elem_of_cons, elem_of_nil in H.
  unfold dispatch.
  repeat match goal with
         | |- context [if String.eqb nm ?s then _ else _] =>
             let E := fresh "E" in
             destruct (String.eqb nm s) eqn:E;
             [apply String.eqb_eq in E; exfalso; apply H; tauto | clear E]
         end.
  reflexivity.
Qed.

(** C4: whatever the request, [handle_call_tool] never raises: when it
    answers, it answers with one text content.  Every
    exception raised while the request is served -- the unknown-tool error,
    a validation failure, the missing external tool, a failed external
    command -- comes back as one ordinary text content, "Error: " followed
    by the text of the exception; for a tool name that is not in the
    registry this is the unknown-tool error, in an unchanged world. *)
Theorem failures_are_text_responses (nm : string)
    (args : gmap string pyval) (w : world) :
  ((forall e, (handle_call_tool lib nm args w).1 <> Raises e)
   /\ ((exists s, (handle_call_tool lib nm args w).1
                  = Returns [text_content s])
       \/ (handle_call_tool lib nm args w).1 = Blocks))
  /\ (forall e,
        (dispatch lib nm args w).1 = Raises e ->
        handle_call_tool lib nm args w
        = (Returns [text_content ("Error: " +:+ exn_str e)],
           (dispatch lib nm args w).2))
  /\ (nm ∉ (name <$> handle_list_tools) ->
      handle_call_tool lib nm args w
      = (Returns [text_content ("Error: Unknown tool: " +:+ nm)], w)).
Proof.
  split; [split|split].
  - intros e. unfold handle_call_tool, try_except, mbind, M_bind, mret, M_ret.
    destruct (dispatch lib nm args w) as [[s|e'|] w']; simpl; discriminate.
  - unfold handle_call_tool, try_except, mbind, M_bind, mret, M_ret.
    destruct (dispatch lib nm args w) as [[s|e'|] w']; simpl;
      [left; eexists; reflexivity | left; eexists; reflexivity
      | right; reflexivity].
  - intros e He.
    unfold handle_call_tool, try_except, mbind, M_bind, mret, M_ret.
    destruct (dispatch lib nm args w) as [[s|e'|] w']; simpl in *;
      inversion He; reflexivity.
  - intros Hn.
    unfold handle_call_tool, try_except, mbind, M_bind.
    rewrite (dispatch_unknown nm args w Hn). reflexivity.
Qed.

End Boundary.

Lemma failures_are_text_responses_witness :
  let w := world_answering (Spawned (Exits 1 "" "Invalid device")) in
  let gone :=
    world_answering
      (SpawnRaises (Exn FileNotFoundError
                      "[Errno 2] No such file or directory: 'xcrun'")) in
  let args : gmap string pyval := {[ "device" := PStr "iPhone-15" ]} in
  handle_call_tool sample_lib "simctl_reboot" args w
  = (Returns [text_content "Error: Unknown tool: simctl_reboot"], w)
  /\ (handle_call_tool sample_lib "simctl_boot_device" ∅ w).1
     = Returns [text_content "Error: 'device'"]
  /\ (handle_call_tool sample_lib "simctl_boot_device" args gone).1
     = Returns
         [text_content
            "Error: xcrun simctl not found. Make sure Xcode is installed."]
  /\ (handle_call_tool sample_lib "simctl_boot_device" args w).1
     = Returns [text_content "Error: simctl command failed: Invalid device"].
Proof.
  intros w gone args. split; [|split; [|split]].
  - apply (proj2 (proj2 (failures_are_text_responses sample_lib
                           "simctl_reboot" args w))).
    unfold handle_list_tools. cbn [fmap list_fmap name].
    rewrite !elem_of_cons, elem_of_nil.
    intros H. repeat (destruct H as [H|H]; [discriminate H|]). exact H.
  - rewrite (proj1 (proj2 (failures_are_text_responses sample_lib
                             "simctl_boot_device" ∅ w))
               (key_error "device")) by reflexivity.
    reflexivity.
  - rewrite (proj1 (proj2 (failures_are_text_responses sample_lib
                             "simctl_boot_device" args gone))
               (Exn RuntimeError
                  "xcrun simctl not found. Make sure Xcode is installed."))
      by reflexivity.
    reflexivity.
  - rewrite (proj1 (proj2 (failures_are_text_responses sample_lib
                             "simctl_boot_device" args w))
               (Exn RuntimeError "simctl command failed: Invalid device"))
      by reflexivity.
    reflexivity.
Defined.

(** ** Handlers as one run of the executor *)

Lemma bind_mret_r {A} (m : M A) (w : world) : (m ≫= mret) w = m w.
Proof.
  unfold mbind, M_bind. destruct (m w) as [[a|e|] w']; reflexivity.
Qed.

(** The outcome of the executor depends on the world through the launcher
    only. *)
Lemma run_outcome_launch (lib : PyLib) (a : list pyval) (w w' : world) :
  launch w = launch w' ->
  (_run_simctl_command lib a w).1 = (_run_simctl_command lib a w').1.
Proof.
  intros Hl.
  unfold _run_simctl_command, try_except, create_subprocess_exec, mbind,
    M_bind, communicate, decode, raise, mret, M_ret.
  simpl. rewrite Hl.
  destruct (launch w' _) as [e|[rc out err|out err]]; simpl.
  - destruct (is_FileNotFoundError e); reflexivity.
  - repeat case_match; simplify_eq/=; reflexivity.
  - reflexivity.
Qed.

Section Factoring.

Context (lib : PyLib).

Lemma factored_bind_local {A B} (m : M A) (k : A -> M B) :
  local m -> (forall a, factored lib (k a)) -> factored lib (m ≫= k).
Proof.
  intros [o [Ho Hq]] Hk. destruct o as [a|e|]; [| |contradiction].
  - destruct (Hk a) as [[e [He Hr]] | [c [k' [Hs Hr]]]].
    + left. exists e. split; [exact He|]. intros w.
      unfold mbind, M_bind. rewrite Ho. apply Hr.
    + right. exists c, k'. split; [exact Hs|]. intros w.
      unfold mbind at 1. unfold M_bind at 1. rewrite Ho. apply Hr.
  - left. exists e. split; [exact Hq|]. intros w.
    unfold mbind, M_bind. rewrite Ho. reflexivity.
Qed.

Lemma factored_run_then {B} (a : list pyval) (k : string -> M B) :
  (forall s, stateless (k s)) -> factored lib (_run_simctl_command lib a ≫= k).
Proof. intros Hk. right. exists a, k. split; [exact Hk | reflexivity]. Qed.

Lemma factored_run (a : list pyval) : factored lib (_run_simctl_command lib a).
Proof.
  right. exists a, mret. split; [intros s; apply stateless_ret|].
  intros w. symmetry. apply bind_mret_r.
Qed.

Ltac factor_auto :=
  cbv zeta;
  repeat
    match goal with
    | |- factored _ (mbind _ (_run_simctl_command _ _)) =>
        apply factored_run_then; intros ?; auto 30 with stateless_db
    | |- factored _ (_run_simctl_command _ _) => apply factored_run
    | |- factored _ (mbind _ _) =>
        apply factored_bind_local; [auto 30 with local_db | intros ?]
    end.

Lemma list_devices_factored (args : gmap string pyval) :
  factored lib (_list_devices lib args).
Proof. unfold _list_devices. factor_auto. Qed.

Lemma boot_device_factored (args : gmap string pyval) :
  factored lib (_boot_device lib args).
Proof. unfold _boot_device. factor_auto. Qed.

Lemma shutdown_device_factored (args : gmap string pyval) :
  factored lib (_shutdown_device lib args).
Proof. unfold _shutdown_device. factor_auto. Qed.

Lemma create_device_factored (args : gmap string pyval) :
  factored lib (_create_device lib args).
Proof. unfold _create_device. factor_auto. Qed.

Lemma delete_device_factored (args : gmap string pyval) :
  factored lib (_delete_device lib args).
Proof. unfold _delete_device. factor_auto. Qed.

Lemma install_app_factored (args : gmap string pyval) :
  factored lib (_install_app lib args).
Proof. unfold _install_app. factor_auto. Qed.

Lemma launch_app_factored (args : gmap string pyval) :
  factored lib (_launch_app lib args).
Proof. unfold _launch_app. factor_auto. Qed.

Lemma terminate_app_factored (args : gmap string pyval) :
  factored lib (_terminate_app lib args).
Proof. unfold _terminate_app. factor_auto. Qed.

Lemma screenshot_factored (args : gmap string pyval) :
  factored lib (_screenshot lib args).
Proof. unfold _screenshot. factor_auto. Qed.

Lemma record_video_factored (args : gmap string pyval) :
  factored lib (_record_video lib args).
Proof. unfold _record_video. factor_auto. Qed.

Lemma privacy_control_factored (args : gmap string pyval) :
  factored lib (_privacy_control lib args).
Proof. unfold _privacy_control. factor_auto. Qed.

Lemma set_location_factored (args : gmap string pyval) :
  factored lib (_set_location lib args).
Proof. unfold _set_location. factor_auto. Qed.

Lemma status_bar_override_factored (args : gmap string pyval) :
  factored lib (_status_bar_override lib args).
Proof. unfold _status_bar_override. factor_auto. Qed.

Lemma ui_appearance_factored (args : gmap string pyval) :
  factored lib (_ui_appearance lib args).
Proof. unfold _ui_appearance. factor_auto. Qed.

(** What a factored handler does in a given world. *)
Lemma factored_outcome {A} (m : M A) (w : world) :
  factored lib m -> rejected w (m w) \/ follows_executor lib w (m w).
Proof.
  intros [[e [_ Hr]] | [a [k [Hs Hr]]]].
  - left. exists e. rewrite Hr. split; reflexivity.
  - right. exists a. rewrite Hr, bind_run.
    destruct (_run_simctl_command lib a w).1 as [s|e|] eqn:Ho.
    + destruct (Hs s) as [o Hk]. rewrite Hk. cbn [fst snd].
      split; [apply spawned_answered|].
      split; [intros e He; discriminate He | intros He; discriminate He].
    + cbn [fst snd]. split; [apply spawned_answered|].
      split; [intros e' He; inversion He; reflexivity
             | intros He; discriminate He].
    + cbn [fst snd]. split; [apply spawned_answered|].
      split; [intros e' He; discriminate He | reflexivity].
Qed.

End Factoring.

Section Serving.

Context (lib : PyLib).

Lemma push_notification_served (args : gmap string pyval) (w : world) :
  served lib w (_push_notification lib args w).
Proof.
  unfold _push_notification, try_finally.
  rewrite bind_assoc.
  unfold mbind at 1. unfold M_bind at 1. unfold NamedTemporaryFile at 1.
  fold (payload_path w).
  rewrite bind_assoc. exec1.
  - rewrite bind_assoc.
    unfold mbind at 1. unfold M_bind at 1. unfold file_write at 1.
    rewrite bind_ret. cbv beta.
    set (w2 := log (EvWrite _ _) _).
    assert (Hf2 : is_Some (files w2 !! payload_path w)).
    { unfold w2. cbn [files log set_files]. rewrite !lookup_insert_eq.
      eexists; reflexivity. }
    assert (Hs2 : spawned (trace w2) = spawned (trace w)).
    { unfold w2. cbn [trace files log set_files].
      rewrite !spawned_app. simpl. rewrite !app_nil_r. reflexivity. }
    assert (Hl2 : launch w2 = launch w) by reflexivity.
    destruct Hf2 as [content Hf2]. clearbody w2.
    exec1.
    + exec1. rewrite bind_run.
      right.
      match goal with
      | |- context [(_run_simctl_command lib ?a w2).1] =>
          exists a; rewrite <- (run_outcome_launch lib a w2 w Hl2);
          destruct (_run_simctl_command lib a w2).1 as [s|e|]
      end;
        cbv beta iota zeta; unfold mret, M_ret, os_unlink, answered;
        cbn [files log set_files]; rewrite ?Hf2;
        cbn [fst snd files trace log set_files];
        (split;
         [rewrite !spawned_app, Hs2; simpl; rewrite ?app_nil_r; reflexivity|]);
        (split; [intros e' He; inversion He; reflexivity
                | intros He; inversion He; reflexivity]).
    + cbv beta iota zeta. unfold os_unlink. rewrite Hf2.
      left. exists (key_error "device").
      cbn [fst snd files trace log set_files].
      split; [reflexivity|].
      rewrite spawned_app, Hs2. simpl. apply app_nil_r.
  - left. exists (key_error "payload").
    cbn [fst snd files trace log set_files].
    split; [reflexivity|].
    rewrite spawned_app. simpl. apply app_nil_r.
Qed.

(** Every request is turned down before anything is launched, or launches
    [xcrun simctl] once and shares the fate of that run. *)
Lemma dispatch_served (nm : string) (args : gmap string pyval) (w : world) :
  served lib w (dispatch lib nm args w).
Proof.
  unfold dispatch.
  repeat match goal with
         | |- context [if String.eqb nm ?s then _ else _] =>
             destruct (String.eqb nm s)
         end;
    first
      [ apply push_notification_served
      | apply factored_outcome;
        first [ apply list_devices_factored | apply boot_device_factored
              | apply shutdown_device_factored | apply create_device_factored
              | apply delete_device_factored | apply install_app_factored
              | apply launch_app_factored | apply terminate_app_factored
              | apply screenshot_factored | apply record_video_factored
              | apply privacy_control_factored | apply set_location_factored
              | apply status_bar_override_factored
              | apply ui_appearance_factored ]
      | left; eexists; split; reflexivity ].
Qed.

End Serving.

(** ** More on the executor *)

Section ExecutorMore.

Context (lib : PyLib).

(** Whatever the child process does, one call of [_run_simctl_command]
    launches exactly one command line, [xcrun simctl] followed by the
    arguments as given, and neither creates nor removes a file: there is
    no second attempt. *)
Theorem executor_launches_once (a : list pyval) (w : world) :
  trace (_run_simctl_command lib a w).2
  = trace w ++ [EvSpawn (PStr "xcrun" :: PStr "simctl" :: a)]
  /\ files (_run_simctl_command lib a w).2 = files w
  /\ launch (_run_simctl_command lib a w).2 = launch w.
Proof. rewrite run_world. repeat split; reflexivity. Qed.

(** Only a launcher's [FileNotFoundError] is translated.  Any other
    exception of the launch is raised unchanged, and output that is not
    UTF-8 raises [UnicodeDecodeError]: from standard output when the
    process succeeded, from a non-empty standard error when it failed. *)
Theorem executor_passes_other_errors (a : list pyval) (w : world)
    (r : spawn_result) :
  launch w (PStr "xcrun" :: PStr "simctl" :: a) = r ->
  (forall e, r = SpawnRaises e -> is_FileNotFoundError e = false ->
     (_run_simctl_command lib a w).1 = Raises e)
  /\ (forall out err,
        r = Spawned (Exits 0 out err) -> utf8_valid out = false ->
        (_run_simctl_command lib a w).1
        = Raises (Exn UnicodeDecodeError (decode_error_str lib out)))
  /\ (forall rc out err,
        r = Spawned (Exits rc out err) -> rc <> 0%Z -> err <> "" ->
        utf8_valid err = false ->
        (_run_simctl_command lib a w).1
        = Raises (Exn UnicodeDecodeError (decode_error_str lib err))).
Proof.
  intros Hl. split; [|split].
  - intros e -> He. eapply run_spawn_error; eassumption.
  - intros out err -> Hv.
    unfold _run_simctl_command, try_except, create_subprocess_exec, mbind,
      M_bind, communicate, decode, mret, M_ret, raise.
    simpl. rewrite Hl. simpl. rewrite Hv. reflexivity.
  - intros rc out err -> Hrc He Hv.
    unfold _run_simctl_command, try_except, create_subprocess_exec, mbind,
      M_bind, communicate, decode, mret, M_ret, raise.
    simpl. rewrite Hl. simpl.
    destruct (Z.eqb_spec rc 0) as [->|_]; [contradiction|]. simpl.
    destruct (String.eqb_spec err "") as [->|_]; [contradiction|]. simpl.
    rewrite Hv. reflexivity.
Qed.

End ExecutorMore.

Lemma executor_passes_other_errors_witness :
  let denied := Exn (OtherException "PermissionError")
                  "[Errno 13] Permission denied: 'xcrun'" in
  (_run_simctl_command sample_lib [PStr "list"]
     (world_answering (SpawnRaises denied))).1
  = Raises denied
  /\ (_run_simctl_command sample_lib [PStr "list"]
        (world_answering (Spawned (Exits 0 (String "255" "") "")))).1
     = Raises (Exn UnicodeDecodeError "invalid start byte")
  /\ (_run_simctl_command sample_lib [PStr "list"]
        (world_answering (Spawned (Exits 1 "" (String "255" ""))))).1
     = Raises (Exn UnicodeDecodeError "invalid start byte").
Proof.
  intros denied. split; [|split].
  - apply (proj1 (executor_passes_other_errors sample_lib [PStr "list"]
                    (world_answering (SpawnRaises denied)) _ eq_refl)
             denied); reflexivity.
  - apply (proj1 (proj2 (executor_passes_other_errors sample_lib
                           [PStr "list"]
                           (world_answering
                              (Spawned (Exits 0 (String "255" "") "")))
                           _ eq_refl))
             (String "255" "") ""); reflexivity.
  - apply (proj2 (proj2 (executor_passes_other_errors sample_lib
                           [PStr "list"]
                           (world_answering
                              (Spawned (Exits 1 "" (String "255" ""))))
                           _ eq_refl))
             1%Z "" (String "255" ""));
      [reflexivity | discriminate | discriminate | reflexivity].
Defined.

(** ** Every tool and the executor *)

Section EveryTool.

Context (lib : PyLib).

(** What the caller sees of a request that was served. *)
Lemma handle_served (nm : string) (args : gmap string pyval) (w : world) :
  (exists e, (handle_call_tool lib nm args w).1
             = Returns [text_content ("Error: " +:+ exn_str e)]
             /\ spawned (trace (handle_call_tool lib nm args w).2)
                = spawned (trace w))
  \/ (exists a,
        spawned (trace (handle_call_tool lib nm args w).2)
        = spawned (trace w) ++ [PStr "xcrun" :: PStr "simctl" :: a]
        /\ (forall e, (_run_simctl_command lib a w).1 = Raises e ->
              (handle_call_tool lib nm args w).1
              = Returns [text_content ("Error: " +:+ exn_str e)])
        /\ ((_run_simctl_command lib a w).1 = Blocks ->
            (handle_call_tool lib nm args w).1 = Blocks)).
Proof.
  destruct (dispatch_served lib nm args w) as [[e [He Hs]] | [a [Hs [Hr Hb]]]].
  - left. exists e. rewrite handle_world.
    split; [apply handle_raises; exact He | exact Hs].
  - right. exists a. rewrite handle_world. split; [exact Hs|]. split.
    + intros e He. apply handle_raises. apply Hr. exact He.
    + intros He. apply handle_blocks. apply Hb. exact He.
Qed.

(** No request launches more than one command line, and a command line
    that is launched starts with [xcrun simctl]. *)
Theorem at_most_one_launch (nm : string) (args : gmap string pyval)
    (w : world) :
  spawned (trace (handle_call_tool lib nm args w).2) = spawned (trace w)
  \/ exists a,
       spawned (trace (handle_call_tool lib nm args w).2)
       = spawned (trace w) ++ [PStr "xcrun" :: PStr "simctl" :: a].
Proof.
  destruct (handle_served nm args w) as [[e [_ Hs]] | [a [Hs _]]];
    [left; exact Hs | right; exists a; exact Hs].
Qed.

(** When [xcrun] cannot be found, every request, whatever the tool, is
    answered with the "not found" text, unless it was turned down with an
    error text before anything was launched. *)
Theorem missing_tool_reaches_caller (nm : string)
    (args : gmap string pyval) (w : world) (e : exn) :
  (forall cmd, launch w cmd = SpawnRaises e) ->
  is_FileNotFoundError e = true ->
  (handle_call_tool lib nm args w).1
  = Returns
      [text_content
         "Error: xcrun simctl not found. Make sure Xcode is installed."]
  \/ (exists e', (handle_call_tool lib nm args w).1
                 = Returns [text_content ("Error: " +:+ exn_str e')]
                 /\ spawned (trace (handle_call_tool lib nm args w).2)
                    = spawned (trace w)).
Proof.
  intros Hl He.
  destruct (handle_served nm args w) as [Hrej | [a [_ [Hr _]]]];
    [right; exact Hrej | left].
  rewrite (Hr _ (run_not_found lib a w e (Hl _) He)). reflexivity.
Qed.

(** When the external command leaves with a non-zero status, no tool
    reports success: the answer is the "simctl command failed" text with
    the trimmed standard error (or "Command failed"), unless the request
    was turned down before anything was launched. *)
Theorem failed_command_reaches_caller (nm : string)
    (args : gmap string pyval) (w : world) (rc : Z) (out err : string) :
  (forall cmd, launch w cmd = Spawned (Exits rc out err)) ->
  rc <> 0%Z ->
  utf8_valid err = true ->
  (handle_call_tool lib nm args w).1
  = Returns
      [text_content
         ("Error: simctl command failed: "
          +:+ (if String.eqb err "" then "Command failed"
               else py_strip err))]
  \/ (exists e', (handle_call_tool lib nm args w).1
                 = Returns [text_content ("Error: " +:+ exn_str e')]
                 /\ spawned (trace (handle_call_tool lib nm args w).2)
                    = spawned (trace w)).
Proof.
  intros Hl Hrc Hv.
  destruct (handle_served nm args w) as [Hrej | [a [_ [Hr _]]]];
    [right; exact Hrej | left].
  rewrite (Hr _ (run_exit_nonzero lib a w rc out err (Hl _) Hrc Hv)).
  reflexivity.
Qed.

(** Every tool waits for its process: while the launched process does not
    exit, the call does not answer -- unless the request was turned down
    before anything was launched. *)
Theorem running_process_blocks_every_tool (nm : string)
    (args : gmap string pyval) (w : world) (out err : string) :
  (forall cmd, launch w cmd = Spawned (RunsOn out err)) ->
  (handle_call_tool lib nm args w).1 = Blocks
  \/ (exists e', (handle_call_tool lib nm args w).1
                 = Returns [text_content ("Error: " +:+ exn_str e')]
                 /\ spawned (trace (handle_call_tool lib nm args w).2)
                    = spawned (trace w)).
Proof.
  intros Hl.
  destruct (handle_served nm args w) as [Hrej | [a [_ [_ Hb]]]];
    [right; exact Hrej | left].
  apply Hb. eapply run_blocks. apply Hl.
Qed.

End EveryTool.

Lemma missing_tool_reaches_caller_witness :
  let e := Exn FileNotFoundError
             "[Errno 2] No such file or directory: 'xcrun'" in
  let w := world_answering (SpawnRaises e) in
  let args : gmap string pyval :=
    <[ "bundle_id" := PStr "com.example.app" ]>
      {[ "device" := PStr "booted" ]} in
  (handle_call_tool sample_lib "simctl_terminate_app" args w).1
  = Returns
      [text_content
         "Error: xcrun simctl not found. Make sure Xcode is installed."]
  \/ (exists e', (handle_call_tool sample_lib "simctl_terminate_app"
                    args w).1
                 = Returns [text_content ("Error: " +:+ exn_str e')]
                 /\ spawned (trace (handle_call_tool sample_lib
                                      "simctl_terminate_app" args w).2)
                    = spawned (trace w)).
Proof.
  intros e w args.
  apply (missing_tool_reaches_caller sample_lib "simctl_terminate_app"
           args w e); [intros cmd; reflexivity | reflexivity].
Defined.

Lemma failed_command_reaches_caller_witness :
  let w := world_answering (Spawned (Exits 164 "" "Invalid device: X")) in
  let args : gmap string pyval := {[ "device" := PStr "X" ]} in
  (handle_call_tool sample_lib "simctl_shutdown_device" args w).1
  = Returns
      [text_content "Error: simctl command failed: Invalid device: X"]
  \/ (exists e', (handle_call_tool sample_lib "simctl_shutdown_device"
                    args w).1
                 = Returns [text_content ("Error: " +:+ exn_str e')]
                 /\ spawned (trace (handle_call_tool sample_lib
                                      "simctl_shutdown_device" args w).2)
                    = spawned (trace w)).
Proof.
  intros w args.
  apply (failed_command_reaches_caller sample_lib "simctl_shutdown_device"
           args w 164%Z "" "Invalid device: X");
    [intros cmd; reflexivity | discriminate | reflexivity].
Defined.

Lemma running_process_blocks_every_tool_witness :
  let w := world_answering (Spawned (RunsOn "" "")) in
  let args : gmap string pyval := {[ "device" := PStr "booted" ]} in
  (handle_call_tool sample_lib "simctl_ui_appearance" args w).1 = Blocks
  \/ (exists e', (handle_call_tool sample_lib "simctl_ui_appearance"
                    args w).1
                 = Returns [text_content ("Error: " +:+ exn_str e')]
                 /\ spawned (trace (handle_call_tool sample_lib
                                      "simctl_ui_appearance" args w).2)
                    = spawned (trace w)).
Proof.
  intros w args.
  apply (running_process_blocks_every_tool sample_lib "simctl_ui_appearance"
           args w "" ""); intros cmd; reflexivity.
Defined.

(** ** The registry and the dispatcher *)

Lemma settled_not_unknown {A} (nm : string) (w : world)
    (r : outcome A * world) :
  settled w r ->
  r <> (Raises (Exn ValueError ("Unknown tool: " +:+ nm)), w).
Proof.
  intros [[e [He [Hloc _]]] | [cmd Hcmd]] ->; simpl in *.
  - inversion He; subst e.
    destruct Hloc as [H | [H | [H | H]]]; discriminate H.
  - symmetry in Hcmd. apply app_one_neq in Hcmd. exact Hcmd.
Qed.

Section Registry.

Context (lib : PyLib).

(** The names announced by [handle_list_tools] are exactly the names
    [handle_call_tool] has a handler for: a request is turned down as an
    unknown tool if and only if its name is not announced.  The fifteen
    announced names are distinct. *)
Theorem registry_matches_dispatcher (nm : string)
    (args : gmap string pyval) (w : world) :
  (nm ∈ (name <$> handle_list_tools)
   <-> dispatch lib nm args w
       <> (Raises (Exn ValueError ("Unknown tool: " +:+ nm)), w))
  /\ NoDup (name <$> handle_list_tools)
  /\ length handle_list_tools = 15%nat.
Proof.
  split; [split|split].
  - intros Hin. apply settled_not_unknown.
    unfold handle_list_tools in Hin. cbn [fmap list_fmap name] in Hin.
    repeat (apply elem_of_cons in Hin; destruct Hin as [->|Hin]);
      [.. | apply elem_of_nil in Hin; contradiction].
    + exact (list_devices_shape lib args w).
    + exact (boot_device_shape lib args w).
    + exact (shutdown_device_shape lib args w).
    + exact (create_device_shape lib args w).
    + exact (delete_device_shape lib args w).
    + exact (install_app_shape lib args w).
    + exact (launch_app_shape lib args w).
    + exact (terminate_app_shape lib args w).
    + exact (screenshot_shape lib args w).
    + exact (record_video_shape lib args w).
    + exact (push_notification_shape lib args w).
    + exact (privacy_control_shape lib args w).
    + exact (set_location_shape lib args w).
    + exact (status_bar_override_shape lib args w).
    + exact (ui_appearance_shape lib args w).
  - intros Hne.
    destruct (decide (nm ∈ name <$> handle_list_tools)) as [Hin|Hnin];
      [exact Hin|].
    exfalso. apply Hne. apply dispatch_unknown. exact Hnin.
  - unfold handle_list_tools. cbn [fmap list_fmap name].
    repeat (apply NoDup_cons_2;
            [rewrite ?elem_of_cons, elem_of_nil;
             intros H; repeat (destruct H as [H|H]; [discriminate H|]);
             exact H |]).
    apply NoDup_nil_2.
  - reflexivity.
Qed.

End Registry.

(** ** Evaluating the optional parts of a command line *)

Lemma bind_guard_truthy {A B} (args : gmap string pyval) (k : string)
    (g : pyval -> A) (c : A) (k' : A -> M B) (w : world) :
  ((if truthy (get args k)
    then getitem args k ≫= (fun x => mret (g x)) else mret c) ≫= k') w
  = k' (if truthy (get args k) then g (get args k) else c) w.
Proof.
  unfold get, getitem. destruct (args !! k) as [v|]; simpl; [|reflexivity].
  destruct (truthy v); reflexivity.
Qed.

Lemma bind_guard_not_None {A B} (args : gmap string pyval) (k : string)
    (g : pyval -> A) (c : A) (k' : A -> M B) (w : world) :
  ((if is_not_None (get args k)
    then getitem args k ≫= (fun x => mret (g x)) else mret c) ≫= k') w
  = k' (if is_not_None (get args k) then g (get args k) else c) w.
Proof.
  unfold get, getitem. destruct (args !! k) as [v|]; simpl; [|reflexivity].
  destruct (is_not_None v); reflexivity.
Qed.

Lemma bind_guard_differs {A B} (args : gmap string pyval) (k d : string)
    (g : pyval -> A) (c : A) (k' : A -> M B) (w : world) :
  ((if negb (py_eq_str (get_or args k (PStr d)) d)
    then getitem args k ≫= (fun x => mret (g x)) else mret c) ≫= k') w
  = k' (if negb (py_eq_str (get_or args k (PStr d)) d)
        then g (get_or args k (PStr d)) else c) w.
Proof.
  unfold get_or, getitem. destruct (args !! k) as [v|]; simpl.
  - destruct (negb (py_eq_str v d)); reflexivity.
  - rewrite String.eqb_refl. reflexivity.
Qed.

(** One step of evaluation that keeps the value of an optional part. *)
Ltac eval1 :=
  cbv beta iota zeta;
  match goal with
  | |- context [((?m ≫= ?f) ≫= ?k) ?w] => rewrite (bind_assoc m f k w)
  | |- context [((if truthy (get ?args ?k)
                  then getitem ?args ?k ≫= (fun x => mret (@?g x))
                  else mret ?c) ≫= ?k') ?w] =>
      rewrite (bind_guard_truthy args k g c k' w)
  | |- context [((if is_not_None (get ?args ?k)
                  then getitem ?args ?k ≫= (fun x => mret (@?g x))
                  else mret ?c) ≫= ?k') ?w] =>
      rewrite (bind_guard_not_None args k g c k' w)
  | |- context [((if negb (py_eq_str (get_or ?args ?k (PStr ?d)) ?d)
                  then getitem ?args ?k ≫= (fun x => mret (@?g x))
                  else mret ?c) ≫= ?k') ?w] =>
      rewrite (bind_guard_differs args k d g c k' w)
  | |- context [(getitem ?args ?k ≫= ?f) ?w] =>
      rewrite (bind_getitem args k f w);
      match goal with H : args !! k = _ |- _ => rewrite H end
  | |- context [(mret ?a ≫= ?f) ?w] => rewrite (bind_ret a f w)
  | |- context [(raise ?e ≫= ?f) ?w] => rewrite (bind_raise e f w)
  end.

Lemma run_then_world (lib : PyLib) {B} (a : list pyval)
    (k : string -> M B) (w : world) :
  (forall s, stateless (k s)) ->
  ((_run_simctl_command lib a ≫= k) w).2
  = answered (PStr "xcrun" :: PStr "simctl" :: a) w.
Proof.
  intros Hk. rewrite bind_run.
  destruct (_run_simctl_command lib a w).1 as [s|e|]; try reflexivity.
  destruct (Hk s) as [o Ho]. rewrite Ho. reflexivity.
Qed.

Lemma get_fmap_str (args : gmap string pyval) (k : string)
    (v : option string) :
  args !! k = PStr <$> v ->
  get args k = match v with Some s => PStr s | None => PNone end.
Proof. unfold get. intros ->. destruct v; reflexivity. Qed.

Lemma get_or_fmap_str (args : gmap string pyval) (k d : string)
    (v : option string) :
  args !! k = PStr <$> v ->
  get_or args k (PStr d) = PStr (default d v).
Proof. unfold get_or. intros ->. destruct v; reflexivity. Qed.

Lemma get_fmap_int (args : gmap string pyval) (k : string) (v : option Z) :
  args !! k = PInt <$> v ->
  get args k = match v with Some z => PInt z | None => PNone end.
Proof. unfold get. intros ->. destruct v; reflexivity. Qed.

(** ** Listing devices *)

Section ListDevices.

Context (lib : PyLib).

(** [simctl_list_devices] has no required parameter and always launches:
    [list], then "-j" exactly when [format] is "json", then [devices], then
    the filter when there is one and it is not empty. *)
Theorem list_devices_command_line (args : gmap string pyval) (w : world)
    (fmt flt : option string) :
  args !! "format" = PStr <$> fmt ->
  args !! "filter" = PStr <$> flt ->
  spawned (trace (handle_call_tool lib "simctl_list_devices" args w).2)
  = spawned (trace w)
    ++ [[PStr "xcrun"; PStr "simctl"; PStr "list"]
        ++ match fmt with
           | Some f => if String.eqb f "json" then [PStr "-j"] else []
           | None => []
           end
        ++ [PStr "devices"] ++ token_of flt].
Proof.
  intros Hf Hl. rewrite handle_world.
  change (dispatch lib "simctl_list_devices") with (_list_devices lib).
  unfold _list_devices. eval1.
  rewrite run_then_world by (intros ?; auto 30 with stateless_db).
  rewrite spawned_answered.
  rewrite (get_fmap_str _ _ _ Hf), (get_fmap_str _ _ _ Hl).
  destruct fmt as [f|]; destruct flt as [s|]; cbn [py_eq_str truthy token_of];
    try destruct (String.eqb f "json"); try destruct (String.eqb s "");
    reflexivity.
Qed.

(** The registry declares "json" as the default of [format], but the
    handler does not apply it: a request that leaves [format] out is served
    exactly like one that asks for "text". *)
Theorem list_devices_default_is_text (args : gmap string pyval) (w : world) :
  declared_default "simctl_list_devices" "format" = Some (PStr "json")
  /\ handle_call_tool lib "simctl_list_devices" (delete "format" args) w
     = handle_call_tool lib "simctl_list_devices"
         (<[ "format" := PStr "text" ]> args) w.
Proof.
  split; [reflexivity|].
  unfold handle_call_tool.
  change (dispatch lib "simctl_list_devices") with (_list_devices lib).
  unfold _list_devices, getitem, get.
  rewrite !lookup_delete_eq, !lookup_insert_eq.
  rewrite !lookup_delete_ne by discriminate.
  rewrite !lookup_insert_ne by discriminate.
  reflexivity.
Qed.

(** With [format] "json" and a command that succeeded, the answer is the
    output re-indented by two when it parses as JSON, and the output as it
    is, trimmed, when the parser rejects it; any other exception of the
    parser becomes an error text. *)
Theorem list_devices_json_output (args : gmap string pyval) (w : world)
    (out err : string) :
  args !! "format" = Some (PStr "json") ->
  (forall cmd, launch w cmd = Spawned (Exits 0 out err)) ->
  utf8_valid out = true ->
  (handle_call_tool lib "simctl_list_devices" args w).1
  = Returns
      [text_content
         match json_loads lib (py_strip out) with
         | inr data => json_dumps lib (Some 2%nat) data
         | inl e => if is_JSONDecodeError e then py_strip out
                    else "Error: " +:+ exn_str e
         end].
Proof.
  intros Hf Hl Hv.
  assert (Hd : (dispatch lib "simctl_list_devices" args w).1
               = match json_loads lib (py_strip out) with
                 | inr data => Returns (json_dumps lib (Some 2%nat) data)
                 | inl e => if is_JSONDecodeError e
                            then Returns (py_strip out) else Raises e
                 end).
  { change (dispatch lib "simctl_list_devices") with (_list_devices lib).
    unfold _list_devices. eval1. rewrite bind_run.
    rewrite (run_exit_zero lib _ w out err (Hl _) Hv).
    rewrite (get_Some _ _ _ Hf).
    change (py_eq_str (PStr "json") "json") with true. cbv iota.
    unfold try_except, lift_result, mbind, M_bind, mret, M_ret, raise.
    destruct (json_loads lib (py_strip out)) as [e|data]; [|reflexivity].
    destruct (is_JSONDecodeError e); reflexivity. }
  destruct (json_loads lib (py_strip out)) as [e|data].
  - destruct (is_JSONDecodeError e).
    + apply handle_returns. exact Hd.
    + apply handle_raises. exact Hd.
  - apply handle_returns. exact Hd.
Qed.

End ListDevices.

Lemma list_devices_command_line_witness :
  let args : gmap string pyval :=
    <[ "filter" := PStr "available" ]> {[ "format" := PStr "json" ]} in
  let w := world_answering (Spawned (Exits 0 "" "")) in
  spawned (trace (handle_call_tool sample_lib "simctl_list_devices"
                    args w).2)
  = [[PStr "xcrun"; PStr "simctl"; PStr "list"; PStr "-j"; PStr "devices";
      PStr "available"]].
Proof.
  intros args w.
  apply (list_devices_command_line sample_lib args w (Some "json")
           (Some "available")); reflexivity.
Defined.

Lemma list_devices_json_output_witness :
  let args : gmap string pyval := {[ "format" := PStr "json" ]} in
  let w := world_answering (Spawned (Exits 0 "== Devices ==" "")) in
  (handle_call_tool sample_lib "simctl_list_devices" args w).1
  = Returns [text_content "== Devices =="].
Proof.
  intros args w.
  apply (list_devices_json_output sample_lib args w "== Devices ==" "");
    [reflexivity | intros cmd; reflexivity | reflexivity].
Defined.

(** ** Deleting devices *)

Lemma str_items_strings (l : list string) (i : nat) (w : world) :
  str_items i (PStr <$> l) w = (Returns l, w).
Proof.
  revert i. induction l as [|s l IH]; intros i; [reflexivity|].
  cbn [fmap list_fmap str_items].
  change (list_fmap string pyval PStr l) with (PStr <$> l).
  unfold mbind, M_bind. rewrite IH. reflexivity.
Qed.

Lemma bind_returns {A B} (m : M A) (k : A -> M B) (w w' : world) (a : A) :
  m w = (Returns a, w') -> (m ≫= k) w = k a w'.
Proof. intros H. unfold mbind, M_bind. rewrite H. reflexivity. Qed.

Section DeleteDevice.

Context (lib : PyLib).

(** [simctl_delete_device] passes the names of its list on, in order,
    behind [delete] -- also when the list is empty -- and, when the command
    succeeds, names them again in its answer, separated by ", ". *)
Theorem delete_device_command_line (args : gmap string pyval) (w : world)
    (names : list string) :
  args !! "devices" = Some (PList (PStr <$> names)) ->
  spawned (trace (handle_call_tool lib "simctl_delete_device" args w).2)
  = spawned (trace w)
    ++ [[PStr "xcrun"; PStr "simctl"; PStr "delete"] ++ (PStr <$> names)]
  /\ (forall out err,
        (forall cmd, launch w cmd = Spawned (Exits 0 out err)) ->
        utf8_valid out = true ->
        (handle_call_tool lib "simctl_delete_device" args w).1
        = Returns
            [text_content
               ("Successfully deleted devices: "
                +:+ String.concat ", " names)]).
Proof.
  intros Hd. split.
  - rewrite handle_world.
    change (dispatch lib "simctl_delete_device") with (_delete_device lib).
    unfold _delete_device. eval1. unfold list_concat. eval1.
    rewrite run_then_world by (intros ?; auto 30 with stateless_db).
    rewrite spawned_answered. reflexivity.
  - intros out err Hl Hv. apply handle_returns.
    change (dispatch lib "simctl_delete_device") with (_delete_device lib).
    unfold _delete_device. eval1. unfold list_concat. eval1.
    rewrite bind_run. rewrite (run_exit_zero lib _ w out err (Hl _) Hv).
    eval1. unfold py_join, py_iter. do 2 eval1. rewrite bind_assoc.
    rewrite (bind_returns _ _ _ _ _ (str_items_strings names 0 _)).
    reflexivity.
Qed.

(** When [devices] is not a list, the request ends in a [TypeError] text
    and nothing is launched. *)
Theorem delete_device_needs_list (args : gmap string pyval) (w : world)
    (v : pyval) :
  args !! "devices" = Some v ->
  (forall l, v <> PList l) ->
  exists e, exn_cls e = TypeError
    /\ handle_call_tool lib "simctl_delete_device" args w
       = (Returns [text_content ("Error: " +:+ exn_str e)], w).
Proof.
  intros Hd Hv.
  assert (H : exists e, exn_cls e = TypeError
                /\ dispatch lib "simctl_delete_device" args w
                   = (Raises e, w)).
  { change (dispatch lib "simctl_delete_device") with (_delete_device lib).
    unfold _delete_device. eval1. unfold list_concat.
    destruct v; try (eexists; split; [|reflexivity]; reflexivity).
    exfalso. eapply Hv. reflexivity. }
  destruct H as [e [He Hr]]. exists e. split; [exact He|].
  unfold handle_call_tool, try_except, mbind, M_bind. rewrite Hr.
  reflexivity.
Qed.

End DeleteDevice.

Lemma delete_device_command_line_witness :
  let args : gmap string pyval :=
    {[ "devices" := PList [PStr "A1"; PStr "B2"] ]} in
  let w := world_answering (Spawned (Exits 0 "" "")) in
  spawned (trace (handle_call_tool sample_lib "simctl_delete_device"
                    args w).2)
  = [[PStr "xcrun"; PStr "simctl"; PStr "delete"; PStr "A1"; PStr "B2"]]
  /\ (handle_call_tool sample_lib "simctl_delete_device" args w).1
     = Returns [text_content "Successfully deleted devices: A1, B2"].
Proof.
  intros args w.
  destruct (delete_device_command_line sample_lib args w ["A1"; "B2"]
              eq_refl) as [H1 H2].
  split; [exact H1|].
  apply (H2 "" ""); [intros cmd; reflexivity | reflexivity].
Defined.

Lemma delete_device_needs_list_witness :
  let args : gmap string pyval := {[ "devices" := PStr "A1" ]} in
  let w := world_answering (Spawned (Exits 0 "" "")) in
  exists e, exn_cls e = TypeError
    /\ handle_call_tool sample_lib "simctl_delete_device" args w
       = (Returns [text_content ("Error: " +:+ exn_str e)], w).
Proof.
  intros args w.
  apply (delete_device_needs_list sample_lib args w (PStr "A1"));
    [reflexivity | intros l; discriminate].
Defined.

(** ** Screenshots and recordings *)

Section Media.

Context (lib : PyLib).

(** [simctl_screenshot] launches [io <device> screenshot], then
    "--type=<format>" unless the format is left out or is "png", then
    "--display=<display>" unless the display is left out or is "internal",
    and the output path last. *)
Theorem screenshot_command_line (args : gmap string pyval) (w : world)
    (d p : pyval) (fmt dsp : option string) :
  args !! "device" = Some d ->
  args !! "output_path" = Some p ->
  args !! "format" = PStr <$> fmt ->
  args !! "display" = PStr <$> dsp ->
  spawned (trace (handle_call_tool lib "simctl_screenshot" args w).2)
  = spawned (trace w)
    ++ [[PStr "xcrun"; PStr "simctl"; PStr "io"; d; PStr "screenshot"]
        ++ unless_default "--type=" "png" fmt
        ++ unless_default "--display=" "internal" dsp
        ++ [p]].
Proof.
  intros Hd Hp Hf Hs. rewrite handle_world.
  change (dispatch lib "simctl_screenshot") with (_screenshot lib).
  unfold _screenshot. do 4 eval1.
  rewrite run_then_world by (intros ?; auto 30 with stateless_db).
  rewrite spawned_answered.
  rewrite !(get_or_fmap_str _ _ _ _ Hf), !(get_or_fmap_str _ _ _ _ Hs).
  destruct fmt as [f|]; destruct dsp as [s|];
    cbn [default from_option id py_eq_str py_str unless_default];
    rewrite ?String.eqb_refl;
    try destruct (String.eqb f "png");
    try destruct (String.eqb s "internal"); reflexivity.
Qed.

(** [simctl_record_video] launches [io <device> recordVideo], then
    "--codec=<codec>" unless the codec is left out or is "hevc", then
    "--display=<display>" unless the display is left out or is "internal",
    and the output path last. *)
Theorem record_video_command_line (args : gmap string pyval) (w : world)
    (d p : pyval) (cdc dsp : option string) :
  args !! "device" = Some d ->
  args !! "output_path" = Some p ->
  args !! "codec" = PStr <$> cdc ->
  args !! "display" = PStr <$> dsp ->
  spawned (trace (handle_call_tool lib "simctl_record_video" args w).2)
  = spawned (trace w)
    ++ [[PStr "xcrun"; PStr "simctl"; PStr "io"; d; PStr "recordVideo"]
        ++ unless_default "--codec=" "hevc" cdc
        ++ unless_default "--display=" "internal" dsp
        ++ [p]].
Proof.
  intros Hd Hp Hf Hs. rewrite handle_world.
  change (dispatch lib "simctl_record_video") with (_record_video lib).
  unfold _record_video. do 4 eval1.
  rewrite run_then_world by (intros ?; auto 30 with stateless_db).
  rewrite spawned_answered.
  rewrite !(get_or_fmap_str _ _ _ _ Hf), !(get_or_fmap_str _ _ _ _ Hs).
  destruct cdc as [f|]; destruct dsp as [s|];
    cbn [default from_option id py_eq_str py_str unless_default];
    rewrite ?String.eqb_refl;
    try destruct (String.eqb f "hevc");
    try destruct (String.eqb s "internal"); reflexivity.
Qed.

(** The text "Started video recording ..." is the answer of a recorder
    that has already exited with status zero: it is produced after
    [communicate()] has returned, not while the recording runs. *)
Theorem record_video_answers_after_exit (args : gmap string pyval)
    (w : world) (d : pyval) (p out err : string) :
  args !! "device" = Some d ->
  args !! "output_path" = Some (PStr p) ->
  (forall cmd, launch w cmd = Spawned (Exits 0 out err)) ->
  utf8_valid out = true ->
  (handle_call_tool lib "simctl_record_video" args w).1
  = Returns
      [text_content
         ("Started video recording to " +:+ p
          +:+ ". Send SIGINT (Ctrl+C) to stop.")].
Proof.
  intros Hd Hp Hl Hv. apply handle_returns.
  change (dispatch lib "simctl_record_video") with (_record_video lib).
  unfold _record_video. do 4 eval1. rewrite bind_run.
  rewrite (run_exit_zero lib _ w out err (Hl _) Hv).
  eval1. reflexivity.
Qed.

End Media.

Lemma screenshot_command_line_witness :
  let args : gmap string pyval :=
    <[ "display" := PStr "internal" ]>
      (<[ "format" := PStr "jpeg" ]>
         (<[ "output_path" := PStr "/tmp/s.jpg" ]>
            {[ "device" := PStr "booted" ]})) in
  let w := world_answering (Spawned (Exits 0 "" "")) in
  spawned (trace (handle_call_tool sample_lib "simctl_screenshot" args w).2)
  = [[PStr "xcrun"; PStr "simctl"; PStr "io"; PStr "booted";
      PStr "screenshot"; PStr "--type=jpeg"; PStr "/tmp/s.jpg"]].
Proof.
  intros args w.
  apply (screenshot_command_line sample_lib args w (PStr "booted")
           (PStr "/tmp/s.jpg") (Some "jpeg") (Some "internal"));
    reflexivity.
Defined.

Lemma record_video_command_line_witness :
  let args : gmap string pyval :=
    <[ "display" := PStr "external" ]>
      (<[ "codec" := PStr "h264" ]>
         (<[ "output_path" := PStr "/tmp/v.mov" ]>
            {[ "device" := PStr "booted" ]})) in
  let w := world_answering (Spawned (Exits 0 "" "")) in
  spawned (trace (handle_call_tool sample_lib "simctl_record_video"
                    args w).2)
  = [[PStr "xcrun"; PStr "simctl"; PStr "io"; PStr "booted";
      PStr "recordVideo"; PStr "--codec=h264"; PStr "--display=external";
      PStr "/tmp/v.mov"]].
Proof.
  intros args w.
  apply (record_video_command_line sample_lib args w (PStr "booted")
           (PStr "/tmp/v.mov") (Some "h264") (Some "external"));
    reflexivity.
Defined.

Lemma record_video_answers_after_exit_witness :
  let args : gmap string pyval :=
    <[ "output_path" := PStr "/tmp/v.mov" ]>
      {[ "device" := PStr "booted" ]} in
  let w := world_answering (Spawned (Exits 0 "" "Recording completed")) in
  (handle_call_tool sample_lib "simctl_record_video" args w).1
  = Returns
      [text_content
         "Started video recording to /tmp/v.mov. Send SIGINT (Ctrl+C) to stop."].
Proof.
  intros args w.
  apply (record_video_answers_after_exit sample_lib args w (PStr "booted")
           "/tmp/v.mov" "" "Recording completed");
    [reflexivity | reflexivity | intros cmd; reflexivity | reflexivity].
Defined.

(** ** Creating a device, the appearance, the privacy settings *)

Section Simple.

Context (lib : PyLib).

(** [simctl_create_device] launches [create <name> <device_type>] with the
    runtime behind them when one is given and not empty; when the command
    succeeds, the answer quotes the name and what the tool printed (the
    identifier of the new device), trimmed. *)
Theorem create_device_command_and_answer (args : gmap string pyval)
    (w : world) (n t : string) (rt : option string) (out err : string) :
  args !! "name" = Some (PStr n) ->
  args !! "device_type" = Some (PStr t) ->
  args !! "runtime" = PStr <$> rt ->
  (forall cmd, launch w cmd = Spawned (Exits 0 out err)) ->
  utf8_valid out = true ->
  spawned (trace (handle_call_tool lib "simctl_create_device" args w).2)
  = spawned (trace w)
    ++ [[PStr "xcrun"; PStr "simctl"; PStr "create"; PStr n; PStr t]
        ++ token_of rt]
  /\ (handle_call_tool lib "simctl_create_device" args w).1
     = Returns
         [text_content
            ("Created device '" +:+ n +:+ "': " +:+ py_strip out)].
Proof.
  intros Hn Ht Hr Hl Hv. split.
  - rewrite handle_world.
    change (dispatch lib "simctl_create_device") with (_create_device lib).
    unfold _create_device. do 3 eval1.
    rewrite run_then_world by (intros ?; auto 30 with stateless_db).
    rewrite spawned_answered, (get_fmap_str _ _ _ Hr).
    destruct rt as [s|]; cbn [truthy token_of];
      try destruct (String.eqb s ""); reflexivity.
  - apply handle_returns.
    change (dispatch lib "simctl_create_device") with (_create_device lib).
    unfold _create_device. do 3 eval1. rewrite bind_run.
    rewrite (run_exit_zero lib _ w out err (Hl _) Hv).
    eval1. reflexivity.
Qed.

(** [simctl_ui_appearance] asks for the current appearance when none is
    given (or an empty one) and sets it otherwise; when the command
    succeeds the answer is what the tool printed, trimmed. *)
Theorem ui_appearance_command_and_answer (args : gmap string pyval)
    (w : world) (d : pyval) (ap : option string) (out err : string) :
  args !! "device" = Some d ->
  args !! "appearance" = PStr <$> ap ->
  (forall cmd, launch w cmd = Spawned (Exits 0 out err)) ->
  utf8_valid out = true ->
  spawned (trace (handle_call_tool lib "simctl_ui_appearance" args w).2)
  = spawned (trace w)
    ++ [[PStr "xcrun"; PStr "simctl"; PStr "ui"; d; PStr "appearance"]
        ++ token_of ap]
  /\ (handle_call_tool lib "simctl_ui_appearance" args w).1
     = Returns [text_content (py_strip out)].
Proof.
  intros Hd Ha Hl Hv.
  assert (Hcmd :
            (if truthy (get args "appearance")
             then [PStr "ui"; d; PStr "appearance"] ++ [get args "appearance"]
             else [PStr "ui"; d; PStr "appearance"])
            = [PStr "ui"; d; PStr "appearance"] ++ token_of ap).
  { rewrite (get_fmap_str _ _ _ Ha).
    destruct ap as [s|]; cbn [truthy token_of];
      try destruct (String.eqb s ""); reflexivity. }
  split.
  - rewrite handle_world.
    change (dispatch lib "simctl_ui_appearance") with (_ui_appearance lib).
    unfold _ui_appearance. do 2 eval1.
    rewrite run_world, spawned_answered, Hcmd. reflexivity.
  - apply handle_returns.
    change (dispatch lib "simctl_ui_appearance") with (_ui_appearance lib).
    unfold _ui_appearance. do 2 eval1.
    apply (run_exit_zero lib _ w out err (Hl _) Hv).
Qed.

(** [simctl_privacy_control] launches [privacy <device> <action>
    <service>] with the bundle behind them when one is given and not empty.
    When the command succeeds, the answer spells the action as the action
    followed by "ed" -- "granted", but also "revokeed" -- except for
    "reset", which stays "reset". *)
Theorem privacy_control_command_and_answer (args : gmap string pyval)
    (w : world) (d : pyval) (a s : string) (b : option string)
    (out err : string) :
  args !! "device" = Some d ->
  args !! "action" = Some (PStr a) ->
  args !! "service" = Some (PStr s) ->
  args !! "bundle_id" = PStr <$> b ->
  (forall cmd, launch w cmd = Spawned (Exits 0 out err)) ->
  utf8_valid out = true ->
  spawned (trace (handle_call_tool lib "simctl_privacy_control" args w).2)
  = spawned (trace w)
    ++ [[PStr "xcrun"; PStr "simctl"; PStr "privacy"; d; PStr a; PStr s]
        ++ token_of b]
  /\ (handle_call_tool lib "simctl_privacy_control" args w).1
     = Returns
         [text_content
            ("Privacy permission "
             +:+ (if String.eqb a "reset" then "reset" else a +:+ "ed")
             +:+ " for " +:+ s +:+ " service")].
Proof.
  intros Hd Ha Hs Hb Hl Hv. split.
  - rewrite handle_world.
    change (dispatch lib "simctl_privacy_control")
      with (_privacy_control lib).
    unfold _privacy_control. do 4 eval1.
    rewrite run_then_world by (intros ?; auto 30 with stateless_db).
    rewrite spawned_answered, (get_fmap_str _ _ _ Hb).
    destruct b as [x|]; cbn [truthy token_of];
      try destruct (String.eqb x ""); reflexivity.
  - apply handle_returns.
    change (dispatch lib "simctl_privacy_control")
      with (_privacy_control lib).
    unfold _privacy_control. do 4 eval1. rewrite bind_run.
    rewrite (run_exit_zero lib _ w out err (Hl _) Hv).
    do 2 eval1. cbn [py_eq_str py_str fst].
    destruct (String.eqb a "reset"); reflexivity.
Qed.

End Simple.

Lemma create_device_command_and_answer_witness :
  let args : gmap string pyval :=
    <[ "runtime" := PStr "iOS17.0" ]>
      (<[ "device_type" := PStr "iPhone 15" ]>
         {[ "name" := PStr "Test Phone" ]}) in
  let w := world_answering
             (Spawned (Exits 0 ("4C7D-91" +:+ String "010" "") "")) in
  spawned (trace (handle_call_tool sample_lib "simctl_create_device"
                    args w).2)
  = [[PStr "xcrun"; PStr "simctl"; PStr "create"; PStr "Test Phone";
      PStr "iPhone 15"; PStr "iOS17.0"]]
  /\ (handle_call_tool sample_lib "simctl_create_device" args w).1
     = Returns [text_content "Created device 'Test Phone': 4C7D-91"].
Proof.
  intros args w.
  apply (create_device_command_and_answer sample_lib args w "Test Phone"
           "iPhone 15" (Some "iOS17.0") ("4C7D-91" +:+ String "010" "") "");
    try reflexivity; intros cmd; reflexivity.
Defined.

Lemma ui_appearance_command_and_answer_witness :
  let args : gmap string pyval := {[ "device" := PStr "booted" ]} in
  let w := world_answering
             (Spawned (Exits 0 ("dark" +:+ String "010" "") "")) in
  spawned (trace (handle_call_tool sample_lib "simctl_ui_appearance"
                    args w).2)
  = [[PStr "xcrun"; PStr "simctl"; PStr "ui"; PStr "booted";
      PStr "appearance"]]
  /\ (handle_call_tool sample_lib "simctl_ui_appearance" args w).1
     = Returns [text_content "dark"].
Proof.
  intros args w.
  apply (ui_appearance_command_and_answer sample_lib args w (PStr "booted")
           None ("dark" +:+ String "010" "") "");
    try reflexivity; intros cmd; reflexivity.
Defined.

Lemma privacy_control_command_and_answer_witness :
  let args : gmap string pyval :=
    <[ "bundle_id" := PStr "com.example.app" ]>
      (<[ "service" := PStr "photos" ]>
         (<[ "action" := PStr "revoke" ]>
            {[ "device" := PStr "booted" ]})) in
  let w := world_answering (Spawned (Exits 0 "" "")) in
  spawned (trace (handle_call_tool sample_lib "simctl_privacy_control"
                    args w).2)
  = [[PStr "xcrun"; PStr "simctl"; PStr "privacy"; PStr "booted";
      PStr "revoke"; PStr "photos"; PStr "com.example.app"]]
  /\ (handle_call_tool sample_lib "simctl_privacy_control" args w).1
     = Returns
         [text_content "Privacy permission revokeed for photos service"].
Proof.
  intros args w.
  apply (privacy_control_command_and_answer sample_lib args w
           (PStr "booted") "revoke" "photos" (Some "com.example.app") "" "");
    try reflexivity; intros cmd; reflexivity.
Defined.

(** ** More on the location *)

Section LocationMore.

Context (lib : PyLib).

(** With action "set", a request that lacks the latitude or the longitude
    is answered with the missing-coordinates text and changes nothing. *)
Theorem set_location_requires_pair (args : gmap string pyval) (w : world)
    (d : pyval) :
  args !! "device" = Some d ->
  args !! "action" = Some (PStr "set") ->
  args !! "latitude" = None \/ args !! "longitude" = None ->
  handle_call_tool lib "simctl_set_location" args w
  = (Returns
       [text_content
          "Error: Latitude and longitude required for 'set' action"],
     w).
Proof.
  intros Hd Ha Hc.
  unfold handle_call_tool, try_except, mbind, M_bind.
  change (dispatch lib "simctl_set_location") with (_set_location lib).
  rewrite (set_location_pair_missing lib args w d Hd Ha Hc). reflexivity.
Qed.

(** With action "set" and two coordinates that are not zero, the pair is
    passed as the one token "latitude,longitude" behind the action. *)
Theorem set_location_pair_becomes_token (args : gmap string pyval)
    (w : world) (d lat lon : pyval) :
  args !! "device" = Some d ->
  args !! "action" = Some (PStr "set") ->
  args !! "latitude" = Some lat -> truthy lat = true ->
  args !! "longitude" = Some lon -> truthy lon = true ->
  spawned (trace (handle_call_tool lib "simctl_set_location" args w).2)
  = spawned (trace w)
    ++ [[PStr "xcrun"; PStr "simctl"; PStr "location"; d; PStr "set";
         PStr (py_str lib lat +:+ "," +:+ py_str lib lon)]].
Proof.
  intros Hd Ha Hlat Tlat Hlon Tlon. rewrite handle_world.
  change (dispatch lib "simctl_set_location") with (_set_location lib).
  rewrite (set_location_pair_token lib args w d lat lon Hd Ha Hlat Tlat
             Hlon Tlon).
  apply spawned_answered.
Qed.

(** With action "run", the scenario is required: without one (or with an
    empty one) the request is answered with the scenario-required text and
    changes nothing; with one, it is passed behind the action. *)
Theorem set_location_run_scenario (args : gmap string pyval) (w : world)
    (d : pyval) (sc : option string) :
  args !! "device" = Some d ->
  args !! "action" = Some (PStr "run") ->
  args !! "scenario" = PStr <$> sc ->
  match token_of sc with
  | [] =>
      handle_call_tool lib "simctl_set_location" args w
      = (Returns [text_content "Error: Scenario required for 'run' action"],
         w)
  | tokens =>
      spawned (trace (handle_call_tool lib "simctl_set_location" args w).2)
      = spawned (trace w)
        ++ [[PStr "xcrun"; PStr "simctl"; PStr "location"; d; PStr "run"]
            ++ tokens]
  end.
Proof.
  intros Hd Ha Hs.
  assert (Hnone : truthy (get args "scenario") = false ->
            handle_call_tool lib "simctl_set_location" args w
            = (Returns
                 [text_content "Error: Scenario required for 'run' action"],
               w)).
  { intros Ht.
    assert (Hr : _set_location lib args w = (Raises scenario_required, w)).
    { unfold _set_location. do 3 eval1.
      change (py_eq_str (PStr "run") "set") with false.
      change (py_eq_str (PStr "run") "run") with true.
      cbv iota. rewrite Ht. cbn [negb]. eval1. reflexivity. }
    unfold handle_call_tool, try_except, mbind, M_bind.
    change (dispatch lib "simctl_set_location") with (_set_location lib).
    rewrite Hr. reflexivity. }
  rewrite (get_fmap_str _ _ _ Hs) in Hnone.
  destruct sc as [s|]; cbn [token_of]; [|apply Hnone; reflexivity].
  destruct (String.eqb s "") eqn:Es.
  - apply Hnone. cbn [truthy]. rewrite Es. reflexivity.
  - cbn [fmap option_fmap option_map] in Hs. rewrite handle_world.
    change (dispatch lib "simctl_set_location") with (_set_location lib).
    unfold _set_location. do 3 eval1.
    change (py_eq_str (PStr "run") "set") with false.
    change (py_eq_str (PStr "run") "run") with true.
    cbv iota. rewrite (get_Some _ _ _ Hs). cbn [truthy]. rewrite Es.
    cbn [negb]. do 3 eval1.
    rewrite run_then_world by (intros ?; auto 30 with stateless_db).
    apply spawned_answered.
Qed.

(** With any other action ("clear", "list", ...), the command line is the
    device and the action alone, whatever coordinates or scenario the
    request carries; when the command succeeds the answer is what the tool
    printed, or "Location <action> completed" when it printed nothing. *)
Theorem set_location_other_actions (args : gmap string pyval) (w : world)
    (d : pyval) (a out err : string) :
  args !! "device" = Some d ->
  args !! "action" = Some (PStr a) ->
  a <> "set" -> a <> "run" ->
  (forall cmd, launch w cmd = Spawned (Exits 0 out err)) ->
  utf8_valid out = true ->
  spawned (trace (handle_call_tool lib "simctl_set_location" args w).2)
  = spawned (trace w)
    ++ [[PStr "xcrun"; PStr "simctl"; PStr "location"; d; PStr a]]
  /\ (handle_call_tool lib "simctl_set_location" args w).1
     = Returns
         [text_content
            (if String.eqb (py_strip out) ""
             then "Location " +:+ a +:+ " completed"
             else py_strip out)].
Proof.
  intros Hd Ha Hset Hrun Hl Hv.
  assert (E1 : py_eq_str (PStr a) "set" = false)
    by (apply String.eqb_neq; assumption).
  assert (E2 : py_eq_str (PStr a) "run" = false)
    by (apply String.eqb_neq; assumption).
  split.
  - rewrite handle_world.
    change (dispatch lib "simctl_set_location") with (_set_location lib).
    unfold _set_location. do 3 eval1. rewrite E1, E2. eval1.
    rewrite run_then_world by (intros ?; auto 30 with stateless_db).
    apply spawned_answered.
  - apply handle_returns.
    change (dispatch lib "simctl_set_location") with (_set_location lib).
    unfold _set_location. do 3 eval1. rewrite E1, E2. eval1.
    rewrite bind_run. rewrite (run_exit_zero lib _ w out err (Hl _) Hv).
    destruct (String.eqb (py_strip out) ""); cbn [negb]; cbv iota;
      [eval1|]; reflexivity.
Qed.

End LocationMore.

Lemma set_location_requires_pair_witness :
  let args : gmap string pyval :=
    <[ "latitude" := PInt 37 ]>
      (<[ "action" := PStr "set" ]> {[ "device" := PStr "booted" ]}) in
  let w := world_answering (Spawned (Exits 0 "" "")) in
  handle_call_tool sample_lib "simctl_set_location" args w
  = (Returns
       [text_content
          "Error: Latitude and longitude required for 'set' action"],
     w).
Proof.
  intros args w.
  apply (set_location_requires_pair sample_lib args w (PStr "booted"));
    [reflexivity | reflexivity | right; reflexivity].
Defined.

Lemma set_location_pair_becomes_token_witness :
  let args : gmap string pyval :=
    <[ "longitude" := PInt (-122) ]>
      (<[ "latitude" := PInt 37 ]>
         (<[ "action" := PStr "set" ]> {[ "device" := PStr "booted" ]})) in
  let w := world_answering (Spawned (Exits 0 "" "")) in
  spawned (trace (handle_call_tool sample_lib "simctl_set_location"
                    args w).2)
  = [[PStr "xcrun"; PStr "simctl"; PStr "location"; PStr "booted";
      PStr "set"; PStr "37,-122"]].
Proof.
  intros args w.
  apply (set_location_pair_becomes_token sample_lib args w (PStr "booted")
           (PInt 37) (PInt (-122))); reflexivity.
Defined.

Lemma set_location_run_scenario_witness :
  let args : gmap string pyval :=
    <[ "scenario" := PStr "City Run" ]>
      (<[ "action" := PStr "run" ]> {[ "device" := PStr "booted" ]}) in
  let w := world_answering (Spawned (Exits 0 "" "")) in
  spawned (trace (handle_call_tool sample_lib "simctl_set_location"
                    args w).2)
  = [[PStr "xcrun"; PStr "simctl"; PStr "location"; PStr "booted";
      PStr "run"; PStr "City Run"]].
Proof.
  intros args w.
  apply (set_location_run_scenario sample_lib args w (PStr "booted")
           (Some "City Run")); reflexivity.
Defined.

Lemma set_location_other_actions_witness :
  let args : gmap string pyval :=
    <[ "latitude" := PInt 37 ]>
      (<[ "action" := PStr "clear" ]> {[ "device" := PStr "booted" ]}) in
  let w := world_answering (Spawned (Exits 0 "" "")) in
  spawned (trace (handle_call_tool sample_lib "simctl_set_location"
                    args w).2)
  = [[PStr "xcrun"; PStr "simctl"; PStr "location"; PStr "booted";
      PStr "clear"]]
  /\ (handle_call_tool sample_lib "simctl_set_location" args w).1
     = Returns [text_content "Location clear completed"].
Proof.
  intros args w.
  apply (set_location_other_actions sample_lib args w (PStr "booted")
           "clear" "" "");
    [reflexivity | reflexivity | discriminate | discriminate
    | intros cmd; reflexivity | reflexivity].
Defined.

(** ** The status bar *)

Section StatusBar.

Context (lib : PyLib).

(** Unless the action is "override", [simctl_status_bar_override] passes
    the device and the action alone: every override the request carries is
    ignored. *)
Theorem status_bar_plain_action (args : gmap string pyval) (w : world)
    (d : pyval) (a : string) :
  args !! "device" = Some d ->
  args !! "action" = Some (PStr a) ->
  a <> "override" ->
  spawned (trace (handle_call_tool lib "simctl_status_bar_override"
                    args w).2)
  = spawned (trace w)
    ++ [[PStr "xcrun"; PStr "simctl"; PStr "status_bar"; d; PStr a]].
Proof.
  intros Hd Ha Hne.
  assert (E : py_eq_str (PStr a) "override" = false)
    by (apply String.eqb_neq; assumption).
  rewrite handle_world.
  change (dispatch lib "simctl_status_bar_override")
    with (_status_bar_override lib).
  unfold _status_bar_override. do 3 eval1. rewrite E. eval1.
  rewrite run_then_world by (intros ?; auto 30 with stateless_db).
  apply spawned_answered.
Qed.

(** With action "override", each override that is given becomes a flag
    followed by its value, in the fixed order time, data network, wifi
    bars, cellular bars, battery level, battery state.  The texts are
    passed when they are not empty; the three integers are passed whenever
    they are there -- zero included, and without a check against the range
    the registry declares for them. *)
Theorem status_bar_override_command_line (args : gmap string pyval)
    (w : world) (d : pyval) (tm dn bs : option string)
    (wb cb bl : option Z) :
  args !! "device" = Some d ->
  args !! "action" = Some (PStr "override") ->
  args !! "time" = PStr <$> tm ->
  args !! "data_network" = PStr <$> dn ->
  args !! "wifi_bars" = PInt <$> wb ->
  args !! "cellular_bars" = PInt <$> cb ->
  args !! "battery_level" = PInt <$> bl ->
  args !! "battery_state" = PStr <$> bs ->
  spawned (trace (handle_call_tool lib "simctl_status_bar_override"
                    args w).2)
  = spawned (trace w)
    ++ [[PStr "xcrun"; PStr "simctl"; PStr "status_bar"; d;
         PStr "override"]
        ++ flagged "--time" tm
        ++ flagged "--dataNetwork" dn
        ++ flagged_int "--wifiBars" wb
        ++ flagged_int "--cellularBars" cb
        ++ flagged_int "--batteryLevel" bl
        ++ flagged "--batteryState" bs]
  /\ declared_range "simctl_status_bar_override" "wifi_bars"
     = Some (0, 3)%Z
  /\ declared_range "simctl_status_bar_override" "cellular_bars"
     = Some (0, 4)%Z
  /\ declared_range "simctl_status_bar_override" "battery_level"
     = Some (0, 100)%Z.
Proof.
  intros Hd Ha Htm Hdn Hwb Hcb Hbl Hbs.
  split; [|repeat split; reflexivity].
  rewrite handle_world.
  change (dispatch lib "simctl_status_bar_override")
    with (_status_bar_override lib).
  unfold _status_bar_override. do 3 eval1.
  change (py_eq_str (PStr "override") "override") with true.
  repeat eval1.
  rewrite run_then_world by (intros ?; auto 30 with stateless_db).
  rewrite spawned_answered.
  rewrite !(get_fmap_str _ _ _ Htm), !(get_fmap_str _ _ _ Hdn),
    !(get_fmap_str _ _ _ Hbs), !(get_fmap_int _ _ _ Hwb),
    !(get_fmap_int _ _ _ Hcb), !(get_fmap_int _ _ _ Hbl).
  f_equal. f_equal.
  destruct tm as [t|]; [destruct (String.eqb t "") eqn:Et|];
    destruct dn as [n|]; try destruct (String.eqb n "") eqn:En;
    destruct bs as [s|]; try destruct (String.eqb s "") eqn:Es;
    destruct wb, cb, bl;
    cbn [truthy is_not_None flagged flagged_int py_str negb];
    rewrite ?Et, ?En, ?Es; reflexivity.
Qed.

End StatusBar.

Lemma status_bar_plain_action_witness :
  let args : gmap string pyval :=
    <[ "time" := PStr "9:41" ]>
      (<[ "action" := PStr "clear" ]> {[ "device" := PStr "booted" ]}) in
  let w := world_answering (Spawned (Exits 0 "" "")) in
  spawned (trace (handle_call_tool sample_lib "simctl_status_bar_override"
                    args w).2)
  = [[PStr "xcrun"; PStr "simctl"; PStr "status_bar"; PStr "booted";
      PStr "clear"]].
Proof.
  intros args w.
  apply (status_bar_plain_action sample_lib args w (PStr "booted") "clear");
    [reflexivity | reflexivity | discriminate].
Defined.

Lemma status_bar_override_command_line_witness :
  let args : gmap string pyval :=
    <[ "battery_level" := PInt 250 ]>
      (<[ "wifi_bars" := PInt 0 ]>
         (<[ "time" := PStr "9:41" ]>
            (<[ "action" := PStr "override" ]>
               {[ "device" := PStr "booted" ]}))) in
  let w := world_answering (Spawned (Exits 0 "" "")) in
  spawned (trace (handle_call_tool sample_lib "simctl_status_bar_override"
                    args w).2)
  = [[PStr "xcrun"; PStr "simctl"; PStr "status_bar"; PStr "booted";
      PStr "override"; PStr "--time"; PStr "9:41"; PStr "--wifiBars";
      PStr "0"; PStr "--batteryLevel"; PStr "250"]].
Proof.
  intros args w.
  apply (proj1 (status_bar_override_command_line sample_lib args w
                  (PStr "booted") (Some "9:41") None None (Some 0%Z) None
                  (Some 250%Z) eq_refl eq_refl eq_refl eq_refl eq_refl
                  eq_refl eq_refl eq_refl)).
Defined.

(** ** More on push notifications and on launching *)

Section PushMore.

Context (lib : PyLib).

(** With a device and a payload, and a process that exits (whatever its
    status), a push goes through four effects in this order: the payload
    file is created under a fresh ".json" name, the serialised payload is
    written to it, [push <device> [<bundle>] <file>] is launched with the
    file as last argument, and the file is unlinked.  Afterwards the file
    is gone. *)
Theorem push_notification_file_cycle (args : gmap string pyval) (w : world)
    (d payload : pyval) (b : option string) (rc : Z) (out err : string) :
  args !! "device" = Some d ->
  args !! "payload" = Some payload ->
  args !! "bundle_id" = PStr <$> b ->
  (forall cmd, launch w cmd = Spawned (Exits rc out err)) ->
  trace (handle_call_tool lib "simctl_push_notification" args w).2
  = trace w
    ++ [EvCreate (payload_path w);
        EvWrite (payload_path w) (json_dumps lib None payload);
        EvSpawn ([PStr "xcrun"; PStr "simctl"; PStr "push"; d]
                 ++ token_of b ++ [PStr (payload_path w)]);
        EvUnlink (payload_path w)]
  /\ files (handle_call_tool lib "simctl_push_notification" args w).2
     = delete (payload_path w) (files w).
Proof.
  intros Hd Hp Hb Hl. rewrite handle_world.
  change (dispatch lib "simctl_push_notification")
    with (_push_notification lib).
  assert (Hw : (_push_notification lib args w).2
               = log (EvUnlink (payload_path w))
                   (set_files (delete (payload_path w) (files w))
                      (log (EvSpawn
                              ([PStr "xcrun"; PStr "simctl"; PStr "push"; d]
                               ++ token_of b ++ [PStr (payload_path w)]))
                         (log (EvWrite (payload_path w)
                                 (json_dumps lib None payload))
                            (log (EvCreate (payload_path w)) w))))).
  { unfold _push_notification, try_finally.
    rewrite bind_assoc.
    unfold mbind at 1. unfold M_bind at 1. unfold NamedTemporaryFile at 1.
    fold (payload_path w).
    rewrite bind_assoc. eval1. rewrite bind_assoc.
    unfold mbind at 1. unfold M_bind at 1. unfold file_write at 1.
    rewrite bind_ret. cbv beta.
    cbn [files log set_files]. rewrite lookup_insert_eq.
    cbn [default from_option id append].
    set (w2 := log (EvWrite _ _) _).
    do 2 eval1. rewrite bind_run.
    assert (Hcmd :
              (if truthy (get args "bundle_id")
               then [PStr "push"; d] ++ [get args "bundle_id"]
               else [PStr "push"; d]) ++ [PStr (payload_path w)]
              = [PStr "push"; d] ++ token_of b ++ [PStr (payload_path w)]).
    { rewrite (get_fmap_str _ _ _ Hb).
      destruct b as [s|]; cbn [truthy token_of];
        try destruct (String.eqb s ""); reflexivity. }
    rewrite Hcmd. clear Hcmd.
    assert (Hf : files w2 !! payload_path w
                 = Some (json_dumps lib None payload)).
    { unfold w2. cbn [files log set_files]. apply lookup_insert_eq. }
    assert (Hd2 : delete (payload_path w) (files w2)
                  = delete (payload_path w) (files w)).
    { unfold w2. cbn [files log set_files].
      rewrite !delete_insert_eq. reflexivity. }
    destruct (_run_simctl_command lib _ w2).1 as [s|e|] eqn:Ho.
    - cbv beta iota zeta. unfold mret, M_ret, os_unlink, answered.
      cbn [files log set_files]. rewrite Hf. cbn [snd].
      rewrite Hd2. reflexivity.
    - cbv beta iota zeta. unfold os_unlink, answered.
      cbn [files log set_files]. rewrite Hf. cbn [snd].
      rewrite Hd2. reflexivity.
    - exfalso. revert Ho.
      unfold _run_simctl_command, try_except, create_subprocess_exec,
        mbind, M_bind, communicate, decode, raise, mret, M_ret.
      simpl. rewrite Hl. simpl. repeat case_match; discriminate. }
  rewrite Hw. cbn [trace files log set_files].
  rewrite <- !app_assoc. split; reflexivity.
Qed.

End PushMore.

Lemma push_notification_file_cycle_witness :
  let args : gmap string pyval :=
    <[ "payload" := PDict [("aps", PDict [("alert", PStr "Hi")])] ]>
      (<[ "bundle_id" := PStr "com.example.app" ]>
         {[ "device" := PStr "booted" ]}) in
  let w := world_answering (Spawned (Exits 1 "" "No such app")) in
  trace (handle_call_tool sample_lib "simctl_push_notification" args w).2
  = [EvCreate "/tmp/tmpk2x9w4qa.json";
     EvWrite "/tmp/tmpk2x9w4qa.json" "{}";
     EvSpawn [PStr "xcrun"; PStr "simctl"; PStr "push"; PStr "booted";
              PStr "com.example.app"; PStr "/tmp/tmpk2x9w4qa.json"];
     EvUnlink "/tmp/tmpk2x9w4qa.json"]
  /\ files (handle_call_tool sample_lib "simctl_push_notification"
              args w).2
     = delete "/tmp/tmpk2x9w4qa.json" ∅.
Proof.
  intros args w.
  apply (push_notification_file_cycle sample_lib args w (PStr "booted")
           (PDict [("aps", PDict [("alert", PStr "Hi")])])
           (Some "com.example.app") 1%Z "" "No such app");
    try reflexivity; intros cmd; reflexivity.
Defined.

Section LaunchMore.

Context (lib : PyLib).

(** What [simctl_launch_app] does with its [args] when they are not empty.
    The items of a list follow the bundle, in order.  A string is taken
    character by character, and an object contributes its keys.  A number
    or a boolean ends the request with a [TypeError] text before anything
    is launched. *)
Theorem launch_app_extra_arguments (args : gmap string pyval) (w : world)
    (d b v : pyval) :
  args !! "device" = Some d ->
  args !! "bundle_id" = Some b ->
  args !! "wait_for_debugger" = None ->
  args !! "console_mode" = None ->
  args !! "args" = Some v ->
  truthy v = true ->
  match v with
  | PList l =>
      spawned (trace (handle_call_tool lib "simctl_launch_app" args w).2)
      = spawned (trace w)
        ++ [[PStr "xcrun"; PStr "simctl"; PStr "launch"; d; b] ++ l]
  | PStr s =>
      spawned (trace (handle_call_tool lib "simctl_launch_app" args w).2)
      = spawned (trace w)
        ++ [[PStr "xcrun"; PStr "simctl"; PStr "launch"; d; b]
            ++ (PStr <$> utf8_chars s)]
  | PDict kv =>
      spawned (trace (handle_call_tool lib "simctl_launch_app" args w).2)
      = spawned (trace w)
        ++ [[PStr "xcrun"; PStr "simctl"; PStr "launch"; d; b]
            ++ ((fun p : string * pyval => PStr p.1) <$> kv)]
  | _ =>
      exists e, exn_cls e = TypeError
        /\ handle_call_tool lib "simctl_launch_app" args w
           = (Returns [text_content ("Error: " +:+ exn_str e)], w)
  end.
Proof.
  intros Hd Hb Hw Hc Hv Tv.
  assert (Hstart :
            _launch_app lib args w
            = (py_iter v
               ≫= (fun items =>
                     _run_simctl_command lib
                       (([PStr "launch"] ++ [d; b]) ++ items)
                     ≫= (fun result =>
                           bundle_id ← getitem args "bundle_id";
                           device ← getitem args "device";
                           mret ("Launched " +:+ py_str lib bundle_id
                                 +:+ " on " +:+ py_str lib device
                                 +:+ ": " +:+ result)))) w).
  { unfold _launch_app. cbv zeta.
    rewrite (get_None _ _ Hw), (get_or_None _ _ _ Hc), (get_Some _ _ _ Hv).
    rewrite Tv. cbn [truthy py_eq_str String.eqb Ascii.eqb Bool.eqb].
    do 2 eval1. cbv iota. do 3 eval1. reflexivity. }
  assert (Hlaunch : forall items,
            py_iter v = mret items ->
            spawned (trace (handle_call_tool lib "simctl_launch_app"
                              args w).2)
            = spawned (trace w)
              ++ [[PStr "xcrun"; PStr "simctl"; PStr "launch"; d; b]
                  ++ items]).
  { intros items Hi. rewrite handle_world.
    change (dispatch lib "simctl_launch_app") with (_launch_app lib).
    rewrite Hstart, Hi, bind_ret.
    rewrite run_then_world by (intros ?; auto 30 with stateless_db).
    apply spawned_answered. }
  assert (Hfail : forall e,
            py_iter v = raise e -> exn_cls e = TypeError ->
            exists e, exn_cls e = TypeError
              /\ handle_call_tool lib "simctl_launch_app" args w
                 = (Returns [text_content ("Error: " +:+ exn_str e)], w)).
  { intros e Hi He. exists e. split; [exact He|].
    unfold handle_call_tool, try_except, mbind at 1, M_bind at 1.
    change (dispatch lib "simctl_launch_app") with (_launch_app lib).
    rewrite Hstart, Hi, bind_raise. reflexivity. }
  destruct v; try discriminate Tv;
    first [ apply Hlaunch; reflexivity
          | eapply Hfail; reflexivity ].
Qed.

End LaunchMore.

Lemma launch_app_extra_arguments_witness :
  let args : gmap string pyval :=
    <[ "args" := PStr "-v" ]>
      (<[ "bundle_id" := PStr "com.example.app" ]>
         {[ "device" := PStr "booted" ]}) in
  let w := world_answering (Spawned (Exits 0 "" "")) in
  spawned (trace (handle_call_tool sample_lib "simctl_launch_app" args w).2)
  = [[PStr "xcrun"; PStr "simctl"; PStr "launch"; PStr "booted";
      PStr "com.example.app"; PStr "-"; PStr "v"]].
Proof.
  intros args w.
  apply (launch_app_extra_arguments sample_lib args w (PStr "booted")
           (PStr "com.example.app") (PStr "-v")); reflexivity.
Defined.

(** ** The tools that only pass their arguments on *)

Section PassThrough.

Context (lib : PyLib).


End PassThrough.

